(** * smart_bot.py: the detect / dedupe / rate-limit / reply loop

    A shallow embedding of [src/smart_bot.py].  The module-level state
    ([message_history], [reply_counter]) is threaded explicitly, console
    output and calls to the outside world are collected in a trace, and
    Python exceptions are the [Raise] case of a small error monad.

    Conventions of the model:
    - [time.time()] readings are exact rationals (seconds); the float
      rounding of the interpreter is not modelled.
    - a [str] is a [string] whose characters are code points below 256.
    - the collaborators the program only calls (window manager, screenshot,
      Gemini, pyautogui, the clock) are scripted: a [script] gives, for one
      loop iteration, the outcome of each call site.
    - [hashlib.md5] and [json.loads] are parameters of the development. *)

From Stdlib Require Import ZArith QArith Lqa String Ascii List PrimFloat.
From stdpp Require Import gmap strings.

Local Open Scope string_scope.
Local Open Scope Z_scope.
Local Open Scope list_scope.

(** ** Configuration constants (smart_bot.py, lines 29-32) *)

Definition REPLY_COOLDOWN : Q := 300.
Definition SCAN_INTERVAL : Q := 20.
Definition MAX_REPLIES_PER_HOUR : Z := 10.
Definition DEBUG_MODE : bool := true.

(** The two literals of the loop body: the hourly window of
    [check_rate_limit] and the retention horizon of the history cleanup. *)
Definition RATE_WINDOW : Q := 3600.
Definition RETENTION : Q := 86400.

(** ** Comparisons on clock readings *)

Definition Qltb (a b : Q) : bool := if Qlt_le_dec a b then true else false.
Arguments Qltb : simpl never.

(** ** Python string operations used by the fence stripping *)

Module PyStr.

(** [str.isspace] on a single character, for code points below 256. *)
Definition isspace (c : ascii) : bool :=
  let n := N_of_ascii c in
  ((9 <=? n) && (n <=? 13) || (28 <=? n) && (n <=? 32)
   || (n =? 133) || (n =? 160))%N.

Fixpoint lstrip (s : string) : string :=
  match s with
  | EmptyString => EmptyString
  | String c s' => if isspace c then lstrip s' else s
  end.

Fixpoint rstrip (s : string) : string :=
  match s with
  | EmptyString => EmptyString
  | String c s' =>
      match rstrip s' with
      | EmptyString => if isspace c then EmptyString else String c EmptyString
      | r => String c r
      end
  end.

(** [s.strip()] *)
Definition strip (s : string) : string := rstrip (lstrip s).

(** [sub in s] *)
Fixpoint contains (sub s : string) : bool :=
  String.prefix sub s
  || match s with
     | EmptyString => false
     | String _ s' => contains sub s'
     end.

(** [s.split(sep)] for a non-empty [sep]: a left-to-right scan for
    non-overlapping occurrences.  [skip] counts the characters of a
    matched separator that remain to be consumed, [cur] is the field
    collected so far. *)
Fixpoint split_go (sep : string) (skip : nat) (cur s : string) : list string :=
  match s with
  | EmptyString => [cur]
  | String c s' =>
      match skip with
      | S k => split_go sep k cur s'
      | O =>
          if String.prefix sep s
          then cur :: split_go sep (String.length sep - 1) EmptyString s'
          else split_go sep 0 (cur +:+ String c EmptyString) s'
      end
  end.

Definition split (sep s : string) : list string := split_go sep 0 EmptyString s.

End PyStr.

(** ** Values produced by [json.loads] *)

#[local] Unset Elimination Schemes.
Inductive json : Type :=
| JNull
| JBool (b : bool)
| JInt (n : Z)
| JFloat (f : float)
| JStr (s : string)
| JList (items : list json)
| JDict (items : list (string * json)).
#[local] Set Elimination Schemes.

(** Python truthiness, as used by [if result.get(..) and result.get(..)]. *)
Definition truthy (v : json) : bool :=
  match v with
  | JNull => false
  | JBool b => b
  | JInt n => negb (n =? 0)
  | JFloat f => negb (PrimFloat.eqb f 0%float)
  | JStr s => negb (String.eqb s EmptyString)
  | JList items => match items with [] => false | _ => true end
  | JDict items => match items with [] => false | _ => true end
  end.

(** A [dict] with string keys, in insertion order; keys are distinct. *)
Abbreviation dict := (list (string * json)).

Fixpoint dict_lookup (d : dict) (k : string) : option json :=
  match d with
  | [] => None
  | (k', v) :: d' => if String.eqb k' k then Some v else dict_lookup d' k
  end.

(** [d.get(k, dflt)]; [d.get(k)] is [dict_get d k JNull]. *)
Definition dict_get (d : dict) (k : string) (dflt : json) : json :=
  match dict_lookup d k with
  | Some v => v
  | None => dflt
  end.

Inductive loads_result : Type :=
| Parsed (v : json)
| JSONDecodeError (msg : string).

(** The dictionary both [except] branches of
    [analyze_message_and_generate_reply] return (lines 160 and 163). *)
Definition no_reply : dict :=
  [("should_reply", JBool false); ("message_detected", JStr ""); ("reply", JStr "")].

(** ** Process state (smart_bot.py, lines 46-47) *)

Record counter : Type := { count : Z; reset_time : Q }.

Record bot_state : Type :=
  { message_history : gmap string Q;
    reply_counter : counter }.

Definition set_history (h : gmap string Q) (st : bot_state) : bot_state :=
  {| message_history := h; reply_counter := reply_counter st |}.

(** [reply_counter["count"] = n] and [reply_counter["reset_time"] = t] *)
Definition set_count (n : Z) (st : bot_state) : bot_state :=
  {| message_history := message_history st;
     reply_counter := {| count := n; reset_time := reset_time (reply_counter st) |} |}.

Definition set_reset_time (t : Q) (st : bot_state) : bot_state :=
  {| message_history := message_history st;
     reply_counter := {| count := count (reply_counter st); reset_time := t |} |}.

(** State at import time: empty history, counter started at the clock
    reading [t0]. *)
Definition initial_state (t0 : Q) : bot_state :=
  {| message_history := ∅; reply_counter := {| count := 0; reset_time := t0 |} |}.

(** ** Exceptions, console lines and observable events *)

(** [KeyboardInterrupt] is not a subclass of [Exception]; every other
    exception the program can meet is. *)
Inductive exn : Type :=
| Exception (msg : string)
| KeyboardInterrupt.

Inductive result (A : Type) : Type :=
| Ok (a : A)
| Raise (e : exn).
Arguments Ok {A} a.
Arguments Raise {A} e.

Record Image : Type := { tobytes : string }.

(** One constructor per [print] of the program. *)
Inductive line : Type :=
| WindowNotFound                  (* [!] WhatsApp window not found *)
| WindowFocusError (e : string)   (* [!] Window focus error: e *)
| ScreenshotError (e : string)    (* [!] Screenshot error: e *)
| AIDetected (v : json)           (* [AI] Detected: v *)
| AIShouldReply (v : json)        (* [AI] Should reply: v *)
| JSONParsingError (e : string)   (* [!] JSON parsing error: e *)
| RawResponse (text : string)     (* [!] Raw response: text *)
| GeminiError (e : string)        (* [!] Gemini error: e *)
| ClickedChatArea                 (* Clicked on chat area at (x, y) *)
| ClickedMessageInput             (* Clicked on message input at (x, y) *)
| ClickError (e : string)         (* [!] Click error: e *)
| FailedToFocusInput              (* [!] Failed to focus on chat input *)
| TypingReply                     (* Typing reply... *)
| Sent (message : json)           (* Sent: message *)
| ReplyFailed (e : string)        (* [!] Reply failed: e *)
| RateLimitReached                (* [!] Rate limit reached. Cooling down... *)
| Checking (timestamp : string)   (* [HH:MM:SS] Checking for new messages... *)
| CooldownActive                  (* Already replied to this message recently *)
| PreparingReply (detected : json)(* Preparing to reply to: "detected" *)
| NoNewMessage                    (* No new message requiring a reply *)
| StoppedByUser                   (* [!] Bot stopped by user *)
| LoopError (e : string).         (* Error: e *)

(** Calls that leave the program. *)
Inductive call : Type :=
| GetWindows                      (* gw.getWindowsWithTitle(WHATSAPP_WINDOW_TITLE) *)
| Activate                        (* win.restore(); win.activate(); time.sleep(1) *)
| Screenshot                      (* pyautogui.screenshot, exif_transpose, convert *)
| SaveDebug                       (* os.makedirs("debug"); img.save(debug_path) *)
| GenerateContent (img : Image)   (* vision_model.generate_content([prompt, img]).text *)
| ClickChatArea                   (* pyautogui.click(chat_area_x, chat_area_y); sleep *)
| ClickMessageInput               (* pyautogui.click(input_x, input_y); sleep *)
| Write (message : json)          (* pyautogui.write(message, interval=0.05); sleep *)
| PressEnter                      (* pyautogui.press("enter"); sleep *)
| Sleep (secs : Q).               (* time.sleep(secs) in main *)

(** [Raised e] records that an exception was raised at that point; it is
    bookkeeping of the model, not output of the program. *)
Inductive event : Type :=
| Print (l : line)
| Call (c : call)
| Raised (e : exn).

(** ** The state / trace / exception monad *)

Definition M (A : Type) : Type := bot_state -> result A * bot_state * list event.

Definition ret {A} (a : A) : M A := fun st => (Ok a, st, []).

Definition bind {A B} (m : M A) (k : A -> M B) : M B :=
  fun st =>
    match m st with
    | (Ok a, st1, tr1) => let '(r, st2, tr2) := k a st1 in (r, st2, tr1 ++ tr2)
    | (Raise e, st1, tr1) => (Raise e, st1, tr1)
    end.

Declare Scope bot_scope.
Delimit Scope bot_scope with bot.
Notation "x <- c ;; k" := (bind c (fun x => k))
  (at level 100, c at next level, right associativity) : bot_scope.
Notation "c ;; k" := (bind c (fun _ => k))
  (at level 100, right associativity) : bot_scope.
Local Open Scope bot_scope.

Definition emit (ev : event) : M unit := fun st => (Ok tt, st, [ev]).
Definition print (l : line) : M unit := emit (Print l).
Definition raise {A} (e : exn) : M A := fun st => (Raise e, st, [Raised e]).
Definition gets {A} (f : bot_state -> A) : M A := fun st => (Ok (f st), st, []).
Definition modify (f : bot_state -> bot_state) : M unit := fun st => (Ok tt, f st, []).

(** A call to a collaborator, with the outcome the script gives it. *)
Definition perform {A} (c : call) (r : result A) : M A :=
  emit (Call c) ;;
  match r with
  | Ok a => ret a
  | Raise e => raise e
  end.

(** [try: body  except Exception as e: handler e].  A [KeyboardInterrupt]
    passes through. *)
Definition try_except {A} (body : M A) (handler : string -> M A) : M A :=
  fun st =>
    match body st with
    | (Raise (Exception msg), st1, tr1) =>
        let '(r, st2, tr2) := handler msg st1 in (r, st2, tr1 ++ tr2)
    | other => other
    end.

(** [try: body  except KeyboardInterrupt: on_interrupt
                except Exception as e: handler e]  (main, lines 253-311). *)
Definition try_except_interrupt {A} (body : M A) (on_interrupt : M A)
    (handler : string -> M A) : M A :=
  fun st =>
    match body st with
    | (Raise KeyboardInterrupt, st1, tr1) =>
        let '(r, st2, tr2) := on_interrupt st1 in (r, st2, tr1 ++ tr2)
    | (Raise (Exception msg), st1, tr1) =>
        let '(r, st2, tr2) := handler msg st1 in (r, st2, tr1 ++ tr2)
    | other => other
    end.

(** [type(v).__name__] *)
Definition type_name (v : json) : string :=
  match v with
  | JNull => "NoneType"
  | JBool _ => "bool"
  | JInt _ => "int"
  | JFloat _ => "float"
  | JStr _ => "str"
  | JList _ => "list"
  | JDict _ => "dict"
  end.

(** [d[k]]: [KeyError] on a missing key. *)
Definition getitem (d : dict) (k : string) : M json :=
  match dict_lookup d k with
  | Some v => ret v
  | None => raise (Exception ("'" +:+ k +:+ "'"))
  end.

(** [l[i]] on a list of strings. *)
Definition index (l : list string) (i : nat) : M string :=
  match nth_error l i with
  | Some s => ret s
  | None => raise (Exception "list index out of range")
  end.

Fixpoint for_each {A} (l : list A) (body : A -> M unit) : M unit :=
  match l with
  | [] => ret tt
  | x :: l' => body x ;; for_each l' body
  end.

(** ** The script of one loop iteration

    One field per call site that reaches outside the program, in program
    order.  A field is consulted only if control reaches its call site. *)

Record script : Type :=
  { wall_clock : string;            (* datetime.now().strftime, line 254 *)
    focus_windows : result bool;    (* line 53: is the window list non-empty *)
    focus_activate : result unit;   (* lines 59-62 *)
    capture_windows : result bool;  (* line 73 *)
    capture_shot : result Image;    (* lines 80-83 *)
    capture_debug : result unit;    (* lines 87-90 *)
    clock_gate : Q;                 (* time.time(), line 273 *)
    clock_rate : Q;                 (* time.time(), line 224 *)
    generate_content : result string; (* lines 137-142: response.text *)
    click_windows : result bool;    (* line 169 *)
    click_chat : result unit;       (* lines 180-181 *)
    click_input : result unit;      (* lines 188-189 *)
    typing : result unit;           (* lines 208-209 *)
    press_enter : result unit;      (* lines 212-213 *)
    clock_record : Q;               (* time.time(), line 292 *)
    clock_prune : Q;                (* time.time(), line 296 *)
    sleep_interrupted : bool;       (* Ctrl-C during the sleep of the try body *)
    handler_sleep_interrupted : bool (* Ctrl-C during the sleep of line 311 *) }.

(** [time.time()], with the reading the script gives this call site. *)
Definition time_time (reading : Q) : M Q := ret reading.

(** [time.sleep(SCAN_INTERVAL)]: returns, or is cut short by Ctrl-C. *)
Definition time_sleep (interrupted : bool) : M unit :=
  perform (Sleep SCAN_INTERVAL) (if interrupted then Raise KeyboardInterrupt else Ok tt).

Inductive control : Type := Continue | Break.

(** What a finite prefix of the run has come to: the [while True] is still
    going, or it was left through [break]. *)
Inductive status : Type := Running | Stopped.

Section Bot.

(** [hashlib.md5(bytes).hexdigest()] *)
Variable md5_hexdigest : string -> string.
(** [json.loads] *)
Variable json_loads : string -> loads_result.

(** lines 50-66 *)
Definition focus_whatsapp (env : script) : M bool :=
  try_except
    (wins <- perform GetWindows (focus_windows env) ;;
     if negb wins then
       print WindowNotFound ;; ret false
     else
       perform Activate (focus_activate env) ;;
       ret true)
    (fun e => print (WindowFocusError e) ;; ret false).

(** lines 69-95 *)
Definition get_chat_image (env : script) : M (option Image) :=
  try_except
    (wins <- perform GetWindows (capture_windows env) ;;
     if negb wins then
       print WindowNotFound ;; ret None
     else
       img <- perform Screenshot (capture_shot env) ;;
       (if DEBUG_MODE then perform SaveDebug (capture_debug env) else ret tt) ;;
       ret (Some img))
    (fun e => print (ScreenshotError e) ;; ret None).

(** lines 98-100 *)
Definition generate_image_hash (img : Image) : string :=
  md5_hexdigest (tobytes img).

(** lines 144-148: the text handed to [json.loads]. *)
Definition strip_code_fence (result : string) : M string :=
  if PyStr.contains "```json" result then
    a <- index (PyStr.split "```json" result) 1 ;;
    b <- index (PyStr.split "```" a) 0 ;;
    ret (PyStr.strip b)
  else if PyStr.contains "```" result then
    a <- index (PyStr.split "```" result) 1 ;;
    b <- index (PyStr.split "```" a) 0 ;;
    ret (PyStr.strip b)
  else ret result.

(** lines 103-163.  [json.loads] is the one statement of the [try] that
    raises [JSONDecodeError]; its handler is written at the call.  A
    parsed value that is not a [dict] has no [get]: [AttributeError]. *)
Definition analyze_message_and_generate_reply (env : script) (img : Image) : M dict :=
  try_except
    (text <- perform (GenerateContent img) (generate_content env) ;;
     result <- strip_code_fence (PyStr.strip text) ;;
     match json_loads result with
     | JSONDecodeError e =>
         emit (Raised (Exception e)) ;;
         print (JSONParsingError e) ;;
         print (RawResponse result) ;;
         ret no_reply
     | Parsed (JDict data) =>
         print (AIDetected (dict_get data "message_detected" (JStr "N/A"))) ;;
         print (AIShouldReply (dict_get data "should_reply" (JBool false))) ;;
         ret data
     | Parsed v =>
         raise (Exception ("'" +:+ type_name v +:+ "' object has no attribute 'get'"))
     end)
    (fun e => print (GeminiError e) ;; ret no_reply).

(** lines 166-195 *)
Definition click_on_chat_area_and_input (env : script) : M bool :=
  try_except
    (wins <- perform GetWindows (click_windows env) ;;
     if negb wins then ret false
     else
       perform ClickChatArea (click_chat env) ;;
       print ClickedChatArea ;;
       perform ClickMessageInput (click_input env) ;;
       print ClickedMessageInput ;;
       ret true)
    (fun e => print (ClickError e) ;; ret false).

(** lines 198-219 *)
Definition send_reply (env : script) (message : json) : M bool :=
  try_except
    (focused <- click_on_chat_area_and_input env ;;
     if negb focused then
       print FailedToFocusInput ;; ret false
     else
       print TypingReply ;;
       perform (Write message) (typing env) ;;
       perform PressEnter (press_enter env) ;;
       print (Sent message) ;;
       ret true)
    (fun e => print (ReplyFailed e) ;; ret false).

(** lines 222-235; [now] is the reading of its [time.time()]. *)
Definition check_rate_limit (now : Q) : M bool :=
  current_time <- time_time now ;;
  rc <- gets reply_counter ;;
  (if Qltb RATE_WINDOW (current_time - reset_time rc) then
     modify (set_count 0) ;;
     modify (set_reset_time current_time)
   else ret tt) ;;
  rc <- gets reply_counter ;;
  if MAX_REPLIES_PER_HOUR <=? count rc then
    print RateLimitReached ;; ret false
  else ret true.

(** lines 272-273: the cooldown test of the loop; [now] is the reading
    of its [time.time()]. *)
Definition cooldown_active (history : gmap string Q) (img_hash : string) (now : Q) : bool :=
  let last_reply_time := default 0%Q (history !! img_hash) in
  Qltb (now - last_reply_time) REPLY_COOLDOWN.

(** lines 292-293: the two tracking updates after a successful send. *)
Definition record_reply (img_hash : string) (now : Q) : M unit :=
  modify (fun st => set_history (<[img_hash := now]> (message_history st)) st) ;;
  modify (fun st => set_count (count (reply_counter st) + 1) st).

(** lines 296-300.  The loop runs over a snapshot of the items and only
    deletes the item it visits, so the order of the snapshot is
    immaterial. *)
Definition cleanup_history (current_time : Q) : M unit :=
  modify (set_history ∅) ;;
  items <- gets (fun st => map_to_list (message_history st)) ;;
  for_each items (fun '(h, t) =>
    if Qltb RETENTION (current_time - t) then
      modify (fun st => set_history (delete h (message_history st)) st)
    else ret tt).

(** The body of the [try] of the loop, lines 254-304.  [continue] after
    the sleep is [ret Continue]. *)
Definition loop_body (env : script) : M control :=
  print (Checking (wall_clock env)) ;;
  focused <- focus_whatsapp env ;;
  if negb focused then
    time_sleep (sleep_interrupted env) ;; ret Continue
  else
  chat_img <- get_chat_image env ;;
  match chat_img with
  | None => time_sleep (sleep_interrupted env) ;; ret Continue
  | Some chat_img =>
  let img_hash := generate_image_hash chat_img in
  history <- gets message_history ;;
  now <- time_time (clock_gate env) ;;
  if cooldown_active history img_hash now then
    print CooldownActive ;;
    time_sleep (sleep_interrupted env) ;; ret Continue
  else
  allowed <- check_rate_limit (clock_rate env) ;;
  if negb allowed then
    time_sleep (sleep_interrupted env) ;; ret Continue
  else
  result <- analyze_message_and_generate_reply env chat_img ;;
  (if truthy (dict_get result "should_reply" JNull)
      && truthy (dict_get result "reply" JNull)
   then
     detected <- getitem result "message_detected" ;;
     print (PreparingReply detected) ;;
     reply <- getitem result "reply" ;;
     sent <- send_reply env reply ;;
     if sent then
       now <- time_time (clock_record env) ;;
       record_reply img_hash now ;;
       current_time <- time_time (clock_prune env) ;;
       cleanup_history current_time
     else ret tt
   else print NoNewMessage) ;;
  time_sleep (sleep_interrupted env) ;;
  ret Continue
  end.

(** One pass of [while True], lines 253-311. *)
Definition iteration (env : script) : M control :=
  try_except_interrupt (loop_body env)
    (print StoppedByUser ;; ret Break)
    (fun e =>
       print (LoopError e) ;;
       time_sleep (handler_sleep_interrupted env) ;;
       ret Continue).

(** The [while True] of [main] (lines 252-311), run over the scripts of
    its first iterations; the banner printed before the loop is left out.
    An exception that leaves [iteration] leaves [main]. *)
Fixpoint main (scripts : list script) : M status :=
  match scripts with
  | [] => ret Running
  | env :: rest =>
      c <- iteration env ;;
      match c with
      | Continue => main rest
      | Break => ret Stopped
      end
  end.

End Bot.

(** ** Observations on a run *)

Definition run_result {A} (x : result A * bot_state * list event) : result A := x.1.1.
Definition run_state {A} (x : result A * bot_state * list event) : bot_state := x.1.2.
Definition run_trace {A} (x : result A * bot_state * list event) : list event := x.2.

Definition is_oracle_call (ev : event) : bool :=
  match ev with Call (GenerateContent _) => true | _ => false end.

Definition is_sleep (ev : event) : bool :=
  match ev with Call (Sleep _) => true | _ => false end.

Definition is_sent (ev : event) : bool :=
  match ev with Print (Sent _) => true | _ => false end.

(** The two ways [send_reply] announces that it returns [False]. *)
Definition is_send_failure (ev : event) : bool :=
  match ev with
  | Print FailedToFocusInput | Print (ReplyFailed _) => true
  | _ => false
  end.

Definition is_rate_marker (ev : event) : bool :=
  match ev with Print RateLimitReached => true | _ => false end.

Definition is_cooldown_marker (ev : event) : bool :=
  match ev with Print CooldownActive => true | _ => false end.

(** Was the oracle invoked, was a reply sent, how often did the loop sleep. *)
Definition oracle_invoked (tr : list event) : bool := existsb is_oracle_call tr.
Definition reply_sent (tr : list event) : bool := existsb is_sent tr.
Definition send_failed (tr : list event) : bool := existsb is_send_failure tr.
Definition rate_limited (tr : list event) : bool := existsb is_rate_marker tr.
Definition cooldown_suppressed (tr : list event) : bool := existsb is_cooldown_marker tr.
Definition sleeps (tr : list event) : nat := length (List.filter is_sleep tr).
Definition replies (tr : list event) : nat := length (List.filter is_sent tr).

Definition is_checking (ev : event) : bool :=
  match ev with Print (Checking _) => true | _ => false end.

(** How many iterations the trace shows to have begun. *)
Definition begun (tr : list event) : nat := length (List.filter is_checking tr).

(** The five observations of one iteration, in program order: suppressed by
    the cooldown, suppressed by the rate limit, oracle invoked, send
    reported failed, reply sent. *)
Definition observe (tr : list event) : bool * bool * bool * bool * bool :=
  (cooldown_suppressed tr, rate_limited tr, oracle_invoked tr, send_failed tr, reply_sent tr).

(** Events of the helpers that none of the observations above looks at. *)
Definition plain (ev : event) : bool :=
  negb (is_oracle_call ev || is_sleep ev || is_sent ev || is_send_failure ev
        || is_rate_marker ev || is_cooldown_marker ev
        || match ev with Print StoppedByUser | Print (LoopError _) => true | _ => false end).

(** The lines that report a caught exception, with its message. *)
Definition error_line (l : line) : option string :=
  match l with
  | WindowFocusError e | ScreenshotError e | JSONParsingError e | GeminiError e
  | ClickError e | ReplyFailed e | LoopError e => Some e
  | _ => None
  end.

(** Every [Exception] raised in the trace is reported by an error line. *)
Definition handled (tr : list event) : Prop :=
  forall msg, In (Raised (Exception msg)) tr ->
    exists l, error_line l = Some msg /\ In (Print l) tr.

Definition is_interrupt {A} (r : result A) : bool :=
  match r with Raise KeyboardInterrupt => true | _ => false end.

(** Does the script deliver a [KeyboardInterrupt] at some call site. *)
Definition interrupts (env : script) : bool :=
  is_interrupt (focus_windows env) || is_interrupt (focus_activate env)
  || is_interrupt (capture_windows env) || is_interrupt (capture_shot env)
  || is_interrupt (capture_debug env) || is_interrupt (generate_content env)
  || is_interrupt (click_windows env) || is_interrupt (click_chat env)
  || is_interrupt (click_input env) || is_interrupt (typing env)
  || is_interrupt (press_enter env)
  || sleep_interrupted env || handler_sleep_interrupted env.

(** No [Exception] escapes: the result is a value or a [KeyboardInterrupt]. *)
Definition caught {A} (r : result A) : Prop :=
  match r with Raise (Exception _) => False | _ => True end.

(** The script lets the iteration reach the gate with the frame [img]:
    the window is found and focused, the capture and its debug copy succeed. *)
Definition reached_gate (env : script) (img : Image) : Prop :=
  focus_windows env = Ok true /\ focus_activate env = Ok tt
  /\ capture_windows env = Ok true /\ capture_shot env = Ok img
  /\ capture_debug env = Ok tt.

(** The rate check of the script falls in the window that started at [w]. *)
Definition in_window (w : Q) (env : script) : Prop :=
  (clock_rate env - w <= RATE_WINDOW)%Q.

(** A postcondition read off a run. *)
Definition holds {A} (P : result A -> bot_state -> list event -> Prop)
    (x : result A * bot_state * list event) : Prop :=
  P (run_result x) (run_state x) (run_trace x).

(** ** Closed forms used to state the results *)

(** The rate limiter in closed form: the window is reset first, then the
    count is compared with the cap. *)
Definition roll_window (now : Q) (st : bot_state) : bot_state :=
  if Qltb RATE_WINDOW (now - reset_time (reply_counter st))
  then set_reset_time now (set_count 0 st)
  else st.

(** No character of the text is a backtick. *)
Fixpoint no_backtick (s : string) : bool :=
  match s with
  | EmptyString => true
  | String c s' => negb (Ascii.eqb c "`") && no_backtick s'
  end.

(** The text [strip_code_fence] hands on, as a function of the response:
    the fence stripping never raises, both index expressions are in range. *)
Definition fence_payload (text : string) : string :=
  if PyStr.contains "```json" text then
    PyStr.strip (hd EmptyString (PyStr.split "```" (nth 1 (PyStr.split "```json" text) EmptyString)))
  else if PyStr.contains "```" text then
    PyStr.strip (hd EmptyString (PyStr.split "```" (nth 1 (PyStr.split "```" text) EmptyString)))
  else text.

(** State after the bookkeeping of lines 292-300, from the state [st] the
    send started in. *)
Definition bookkept (st : bot_state) : bot_state :=
  set_history ∅ (set_count (count (reply_counter st) + 1) st).

(** What a helper wrapped in [try ... except Exception] guarantees: it
    leaves the state alone, lets no [Exception] out, emits only events of
    the kind [allowed], reports the exceptions it catches, and is cut short
    only by an interrupt of the script. *)
Definition helper_post {A} (env : script) (allowed : event -> bool) (st : bot_state)
    (x : result A * bot_state * list event) : Prop :=
  run_state x = st
  /\ caught (run_result x)
  /\ forallb allowed (run_trace x) = true
  /\ handled (run_trace x)
  /\ (is_interrupt (run_result x) = true -> interrupts env = true).

Section Paths.

Variable md5_hexdigest : string -> string.

(** The five ways through one iteration, with the state each leaves and
    what it shows in the trace. *)
Inductive path (env : script) (st : bot_state) : bot_state -> list event -> Prop :=
| path_skipped tr :
    (forall img, ~ reached_gate env img) ->
    observe tr = (false, false, false, false, false) ->
    path env st st tr
| path_cooldown img tr :
    reached_gate env img ->
    cooldown_active (message_history st) (generate_image_hash md5_hexdigest img) (clock_gate env) = true ->
    observe tr = (true, false, false, false, false) ->
    path env st st tr
| path_rate_limited img tr :
    reached_gate env img ->
    cooldown_active (message_history st) (generate_image_hash md5_hexdigest img) (clock_gate env) = false ->
    MAX_REPLIES_PER_HOUR <= count (reply_counter st) ->
    roll_window (clock_rate env) st = st ->
    observe tr = (false, true, false, false, false) ->
    path env st st tr
| path_queried img tr failed :
    reached_gate env img ->
    cooldown_active (message_history st) (generate_image_hash md5_hexdigest img) (clock_gate env) = false ->
    count (reply_counter (roll_window (clock_rate env) st)) < MAX_REPLIES_PER_HOUR ->
    observe tr = (false, false, true, failed, false) ->
    path env st (roll_window (clock_rate env) st) tr
| path_replied img tr :
    reached_gate env img ->
    cooldown_active (message_history st) (generate_image_hash md5_hexdigest img) (clock_gate env) = false ->
    count (reply_counter (roll_window (clock_rate env) st)) < MAX_REPLIES_PER_HOUR ->
    observe tr = (false, false, true, false, true) ->
    replies tr = 1%nat ->
    path env st (bookkept (roll_window (clock_rate env) st)) tr.

Definition iteration_summary (env : script) (st : bot_state)
    (r : result control) (st' : bot_state) (tr : list event) : Prop :=
  caught r
  /\ handled tr
  /\ begun tr = 1%nat
  /\ (interrupts env = false ->
      r = Ok Continue /\ sleeps tr = 1%nat
      /\ last tr = Some (Call (Sleep SCAN_INTERVAL)))
  /\ path env st st' tr.

End Paths.

(** ** A scripted world for the concrete runs

    End-to-end scenario of the specification: the frame hashes to
    [abc123], the oracle answers with a fenced JSON object asking for the
    reply [morning!], and every collaborator succeeds. *)

Definition dquote : string := String (ascii_of_nat 34) EmptyString.
Definition newline : string := String (ascii_of_nat 10) EmptyString.

Definition demo_frame : Image := {| tobytes := "frame-1" |}.

Definition demo_md5 (bytes : string) : string :=
  if String.eqb bytes "frame-1" then "abc123" else "d41d8c" +:+ bytes.

Definition demo_json : string :=
  "{" +:+ dquote +:+ "should_reply" +:+ dquote +:+ ": true, "
  +:+ dquote +:+ "message_detected" +:+ dquote +:+ ": " +:+ dquote +:+ "good morning" +:+ dquote
  +:+ ", " +:+ dquote +:+ "reply" +:+ dquote +:+ ": " +:+ dquote +:+ "morning!" +:+ dquote +:+ "}".

Definition demo_data : dict :=
  [("should_reply", JBool true); ("message_detected", JStr "good morning");
   ("reply", JStr "morning!")].

(** A stand-in for [json.loads] that knows the one document of the
    scenario and rejects every other text. *)
Definition demo_loads (text : string) : loads_result :=
  if String.eqb text demo_json then Parsed (JDict demo_data)
  else JSONDecodeError "Expecting value: line 1 column 1 (char 0)".

Definition demo_response : string :=
  "```json" +:+ newline +:+ demo_json +:+ newline +:+ "```".

(** A script in which all four clock readings are [now] and everything
    succeeds, except as the three parameters say: the oracle's answer, the
    window lookup of the injection, and the final key press. *)
Definition scripted (now : Q) (response : result string) (window_at_send : result bool)
    (enter : result unit) : script :=
  {| wall_clock := "12:00:00";
     focus_windows := Ok true; focus_activate := Ok tt;
     capture_windows := Ok true; capture_shot := Ok demo_frame; capture_debug := Ok tt;
     clock_gate := now; clock_rate := now;
     generate_content := response;
     click_windows := window_at_send; click_chat := Ok tt; click_input := Ok tt;
     typing := Ok tt; press_enter := enter;
     clock_record := now; clock_prune := now;
     sleep_interrupted := false; handler_sleep_interrupted := false |}.

Definition demo_script (now : Q) : script :=
  scripted now (Ok demo_response) (Ok true) (Ok tt).

(** The state the specification expects after a first reply to [abc123]
    at time [T]. *)
Definition replied_state (T : Q) : bot_state :=
  {| message_history := {["abc123" := T]};
     reply_counter := {| count := 1; reset_time := 900 |} |}.

(** Ten iterations that each send a reply, 310 seconds apart from 1000 on. *)
Definition ten_sends : list script :=
  map (fun k : Z => demo_script (1000 + inject_Z (310 * k))) [0; 1; 2; 3; 4; 5; 6; 7; 8; 9].

(** ** Further observations on a trace *)

Definition is_write (ev : event) : bool :=
  match ev with Call (Write _) => true | _ => false end.

Definition is_enter (ev : event) : bool :=
  match ev with Call PressEnter => true | _ => false end.

Definition is_stop_line (ev : event) : bool :=
  match ev with Print StoppedByUser => true | _ => false end.

Definition is_loop_error (ev : event) : bool :=
  match ev with Print (LoopError _) => true | _ => false end.

Definition is_prepare_line (ev : event) : bool :=
  match ev with Print (PreparingReply _) => true | _ => false end.

Definition is_no_message_line (ev : event) : bool :=
  match ev with Print NoNewMessage => true | _ => false end.

(** Was the reply typed, was Enter pressed, did the loop announce its end,
    did its own handler report an error, did it announce a reply, did it
    report that there is nothing to reply to. *)
Definition typed (tr : list event) : bool := existsb is_write tr.
Definition entered (tr : list event) : bool := existsb is_enter tr.
Definition stopped (tr : list event) : bool := existsb is_stop_line tr.
Definition loop_error (tr : list event) : bool := existsb is_loop_error tr.
Definition prepared (tr : list event) : bool := existsb is_prepare_line tr.
Definition declined (tr : list event) : bool := existsb is_no_message_line tr.
Definition oracle_calls (tr : list event) : nat := length (List.filter is_oracle_call tr).

(** The order of the effects of one iteration, and how it ends. *)
Definition iteration_order (env : script) (st : bot_state)
    (r : result control) (st' : bot_state) (tr : list event) : Prop :=
  stopped tr = match r with Ok Break => true | _ => false end
  /\ (r = Raise KeyboardInterrupt ->
      handler_sleep_interrupted env = true /\ loop_error tr = true)
  /\ (sleeps tr <=? 1)%nat = true
  /\ (oracle_calls tr <=? 1)%nat = true
  /\ (replies tr <=? 1)%nat = true
  /\ implb (typed tr) (prepared tr && oracle_invoked tr) = true
  /\ implb (entered tr) (typed tr) = true
  /\ implb (reply_sent tr) (entered tr) = true
  /\ implb (loop_error tr) (negb (typed tr)) = true
  /\ implb (declined tr) (negb (prepared tr) && oracle_invoked tr) = true
  /\ (loop_error tr = true -> st' = roll_window (clock_rate env) st).

(** ** The reply decision *)

Section Answered.

Variable md5_hexdigest : string -> string.
Variable json_loads : string -> loads_result.

(** The iteration got past both gates and the oracle answered with the
    JSON object [d]. *)
Definition answered (env : script) (st : bot_state) (d : dict) : Prop :=
  exists (img : Image) (text payload : string),
    reached_gate env img
    /\ cooldown_active (message_history st) (generate_image_hash md5_hexdigest img) (clock_gate env) = false
    /\ count (reply_counter (roll_window (clock_rate env) st)) < MAX_REPLIES_PER_HOUR
    /\ generate_content env = Ok text
    /\ strip_code_fence (PyStr.strip text) st = (Ok payload, st, [])
    /\ json_loads payload = Parsed (JDict d).

End Answered.

(** A response that asks for a reply and names no message, and a
    stand-in for [json.loads] that knows this one document. *)
Definition keyless_json : string :=
  "{" +:+ dquote +:+ "should_reply" +:+ dquote +:+ ": true, "
  +:+ dquote +:+ "reply" +:+ dquote +:+ ": " +:+ dquote +:+ "hello" +:+ dquote +:+ "}".

Definition keyless_data : dict := [("should_reply", JBool true); ("reply", JStr "hello")].

Definition keyless_loads (text : string) : loads_result :=
  if String.eqb text keyless_json then Parsed (JDict keyless_data)
  else JSONDecodeError "Expecting value: line 1 column 1 (char 0)".

(** A script in which the debug copy of the capture cannot be saved. *)
Definition no_debug_copy (now : Q) : script :=
  {| wall_clock := "12:00:00";
     focus_windows := Ok true; focus_activate := Ok tt;
     capture_windows := Ok true; capture_shot := Ok demo_frame;
     capture_debug := Raise (Exception "[Errno 13] Permission denied: 'debug_capture.png'");
     clock_gate := now; clock_rate := now;
     generate_content := Ok demo_response;
     click_windows := Ok true; click_chat := Ok tt; click_input := Ok tt;
     typing := Ok tt; press_enter := Ok tt;
     clock_record := now; clock_prune := now;
     sleep_interrupted := false; handler_sleep_interrupted := false |}.

(** ** smart_bot.py at import time (lines 24-26) *)

(** [if not GOOGLE_API_KEY: raise ValueError(...)], on the value of
    [os.getenv("GOOGLE_API_KEY")]. *)
Definition require_api_key (key : option string) : result unit :=
  match key with
  | None => Raise (Exception "GOOGLE_API_KEY is not set in .env file")
  | Some k =>
      if String.eqb k EmptyString
      then Raise (Exception "GOOGLE_API_KEY is not set in .env file")
      else Ok tt
  end.

(** ** check_setup.py: the setup checker *)

Module CheckSetup.

(** [s[:k]] and [s[-k:]] on a [str], for [k > 0]. *)
Fixpoint str_take (n : nat) (s : string) : string :=
  match n, s with
  | S n', String c s' => String c (str_take n' s')
  | _, _ => EmptyString
  end.

Fixpoint str_drop (n : nat) (s : string) : string :=
  match n, s with
  | S n', String _ s' => str_drop n' s'
  | _, _ => s
  end.

Definition slice_head (k : nat) (s : string) : string := str_take k s.
Definition slice_tail (k : nat) (s : string) : string := str_drop (String.length s - k) s.

(** The outcome of importing a module: it is there, it is not installed
    ([ImportError]), or importing it raises something else. *)
Inductive import_result : Type :=
| Imported
| NotInstalled (msg : string)
| ImportFailed (e : exn).

Record window : Type := { title : string; width : Z; height : Z }.

(** What the checker finds on the machine, one field per place where it
    looks. *)
Record machine : Type :=
  { import_module : string -> import_result;
    env_file_exists : bool;               (* os.path.exists('.env') *)
    load_env : result unit;               (* load_dotenv() *)
    api_key : option string;              (* os.getenv("GOOGLE_API_KEY") *)
    windows : result (list window);       (* gw.getWindowsWithTitle("WhatsApp") *)
    config_exists : bool;                 (* os.path.exists('config.json') *)
    config_json : result json;            (* open('config.json'); json.load(f) *)
    gemini_model : result unit;           (* genai.configure; genai.GenerativeModel *)
    gemini_reply : result string }.       (* model.generate_content(...).text *)

Inductive section_title : Type :=
| Dependencies | Environment | WhatsApp | Configuration | GeminiAPI | Summary | Checker.

(** One constructor per [print] of the script; [Rule] is the line of 50
    equal signs. *)
Inductive sline : Type :=
| Rule
| BlankRule                             (* print("\n" + "=" * 50) *)
| RuleBlank                             (* print("=" * 50 + "\n") *)
| Title (t : section_title)
| PackageOk (package : string)
| PackageMissing (package : string)
| MissingPackages                       (* Missing packages! Install with: *)
| PipInstall (packages : list string)   (* pip install p1 p2 ... *)
| AllInstalled
| EnvFileMissing | CreateEnvHint | KeyTemplate | GetKeyHint
| EnvFileExists
| KeyNotSet                             (* GOOGLE_API_KEY not set properly in .env *)
| KeySet
| KeyShown (first last : string)        (* Key: first...last *)
| EnvConfigured
| WhatsAppNotFound | OpenWhatsAppHint
| WhatsAppFound (title : string)
| WindowSize (width height : Z)
| WhatsAppRunning
| WhatsAppError (e : string)
| ConfigExists
| ChatArea (v : json)
| ConfigError (e : string)
| ConfigNotFound
| ConfigOk
| SendingTest
| ApiResponse (text : string)
| ApiWorking
| ApiError (e : string)
| CheckKeyHint
| CheckResult (passed : bool) (check : section_title)
| AllPassed | ReadyHint | RunHint | RunSmartBot | RunBot | GuideTip
| Incomplete | FixHint
| Blank
| Cancelled                             (* [!] Setup check cancelled *)
| Unexpected (e : string).              (* Unexpected error: e *)

(** Output and exceptions. *)
Definition W (A : Type) : Type := result A * list sline.

Definition wret {A} (a : A) : W A := (Ok a, []).

Definition wbind {A B} (m : W A) (k : A -> W B) : W B :=
  match m with
  | (Ok a, tr1) => let '(r, tr2) := k a in (r, tr1 ++ tr2)
  | (Raise e, tr1) => (Raise e, tr1)
  end.

Declare Scope setup_scope.
Delimit Scope setup_scope with setup.
Notation "x <- c ;; k" := (wbind c (fun x => k))
  (at level 100, c at next level, right associativity) : setup_scope.
Notation "c ;; k" := (wbind c (fun _ => k))
  (at level 100, right associativity) : setup_scope.
Local Open Scope setup_scope.

Definition say (l : sline) : W unit := (Ok tt, [l]).
Definition wraise {A} (e : exn) : W A := (Raise e, []).
Definition outcome {A} (r : result A) : W A := (r, []).

(** [try: body  except Exception as e: handler e] *)
Definition wtry {A} (body : W A) (handler : string -> W A) : W A :=
  match body with
  | (Raise (Exception msg), tr1) => let '(r, tr2) := handler msg in (r, tr1 ++ tr2)
  | other => other
  end.

Definition header (t : section_title) : W unit :=
  say Rule ;; say (Title t) ;; say Rule.

(** lines 14-20, in the order of the dict. *)
Definition required : list (string * string) :=
  [("pyautogui", "pyautogui"); ("PIL", "Pillow");
   ("google.generativeai", "google-generativeai"); ("dotenv", "python-dotenv");
   ("pygetwindow", "pygetwindow")].

(** lines 24-30: only [ImportError] is caught. *)
Fixpoint scan_packages (m : machine) (table : list (string * string))
    (missing : list string) : W (list string) :=
  match table with
  | [] => wret missing
  | (module, package) :: rest =>
      match import_module m module with
      | Imported => say (PackageOk package) ;; scan_packages m rest missing
      | NotInstalled _ =>
          say (PackageMissing package) ;; scan_packages m rest (missing ++ [package])
      | ImportFailed e => wraise e
      end
  end.

(** lines 9-39 *)
Definition check_requirements (m : machine) : W bool :=
  header Dependencies ;;
  missing <- scan_packages m required [] ;;
  match missing with
  | [] => say AllInstalled ;; wret true
  | _ => say MissingPackages ;; say (PipInstall missing) ;; wret false
  end.

(** [from X import ...] outside a [try]. *)
Definition import_or_raise (m : machine) (module : string) : W unit :=
  match import_module m module with
  | Imported => wret tt
  | NotInstalled msg => wraise (Exception msg)
  | ImportFailed e => wraise e
  end.

(** lines 42-69 *)
Definition check_env (m : machine) : W bool :=
  header Environment ;;
  if negb (env_file_exists m) then
    say EnvFileMissing ;; say CreateEnvHint ;; say KeyTemplate ;; say GetKeyHint ;;
    wret false
  else
    say EnvFileExists ;;
    import_or_raise m "dotenv" ;;
    outcome (load_env m) ;;
    match api_key m with
    | None => say KeyNotSet ;; wret false
    | Some key =>
        if String.eqb key EmptyString || String.eqb key "your_api_key_here" then
          say KeyNotSet ;; wret false
        else
          say KeySet ;;
          say (KeyShown (slice_head 10 key) (slice_tail 4 key)) ;;
          say EnvConfigured ;;
          wret true
    end.

(** lines 72-94 *)
Definition check_whatsapp (m : machine) : W bool :=
  header WhatsApp ;;
  wtry
    (import_or_raise m "pygetwindow" ;;
     wins <- outcome (windows m) ;;
     match wins with
     | [] => say WhatsAppNotFound ;; say OpenWhatsAppHint ;; wret false
     | win :: _ =>
         say (WhatsAppFound (title win)) ;;
         say (WindowSize (width win) (height win)) ;;
         say WhatsAppRunning ;;
         wret true
     end)
    (fun e => say (WhatsAppError e) ;; wret false).

(** lines 97-118.  [config.get] exists on a [dict] only. *)
Definition check_config (m : machine) : W bool :=
  header Configuration ;;
  (if config_exists m then
     wtry
       (config <- outcome (config_json m) ;;
        match config with
        | JDict d =>
            say ConfigExists ;;
            say (ChatArea (dict_get d "chat_area" JNull))
        | v => wraise (Exception ("'" +:+ type_name v +:+ "' object has no attribute 'get'"))
        end)
       (fun e => say (ConfigError e))
   else say ConfigNotFound) ;;
  say ConfigOk ;;
  wret true.

(** lines 121-146 *)
Definition test_gemini_api (m : machine) : W bool :=
  header GeminiAPI ;;
  wtry
    (import_or_raise m "dotenv" ;;
     import_or_raise m "google.generativeai" ;;
     outcome (load_env m) ;;
     outcome (gemini_model m) ;;
     say SendingTest ;;
     text <- outcome (gemini_reply m) ;;
     say (ApiResponse (PyStr.strip text)) ;;
     say ApiWorking ;;
     wret true)
    (fun e => say (ApiError e) ;; say CheckKeyHint ;; wret false).

(** [all(checks.values())] *)
Definition all_passed (checks : list (section_title * bool)) : bool :=
  forallb snd checks.

Fixpoint report (checks : list (section_title * bool)) : W unit :=
  match checks with
  | [] => wret tt
  | (check, passed) :: rest => say (CheckResult passed check) ;; report rest
  end.

(** lines 149-190 *)
Definition main (m : machine) : W unit :=
  say BlankRule ;; say (Title Checker) ;; say RuleBlank ;;
  r1 <- check_requirements m ;;
  r2 <- check_env m ;;
  r3 <- check_whatsapp m ;;
  r4 <- check_config m ;;
  let checks := [(Dependencies, r1); (Environment, r2); (WhatsApp, r3); (Configuration, r4)] in
  checks <- (if all_passed checks
             then r5 <- test_gemini_api m ;; wret (checks ++ [(GeminiAPI, r5)])
             else wret checks) ;;
  header Summary ;;
  report checks ;;
  (if all_passed checks then
     say BlankRule ;; say AllPassed ;; say Rule ;; say ReadyHint ;; say RunHint ;;
     say RunSmartBot ;; say RunBot ;; say GuideTip
   else
     say BlankRule ;; say Incomplete ;; say Rule ;; say FixHint) ;;
  say Blank.

(** The packages of a table whose import raises [ImportError]. *)
Fixpoint missing_in (m : machine) (table : list (string * string)) : list string :=
  match table with
  | [] => []
  | (module, package) :: rest =>
      match import_module m module with
      | NotInstalled _ => package :: missing_in m rest
      | _ => missing_in m rest
      end
  end.

(** No import of the table raises anything but [ImportError]. *)
Definition importable (m : machine) (table : list (string * string)) : Prop :=
  forall module package e, In (module, package) table -> import_module m module <> ImportFailed e.

(** The lines of the summary and of its verdict; the lines of the API test. *)
Definition is_verdict (l : sline) : bool :=
  match l with
  | AllPassed | Incomplete | CheckResult _ _ | Title Summary => true
  | _ => false
  end.

Definition is_api (l : sline) : bool :=
  match l with
  | Title GeminiAPI | SendingTest | ApiResponse _ | ApiWorking | ApiError _ | CheckKeyHint => true
  | _ => false
  end.

Definition plain_line (l : sline) : bool := negb (is_verdict l || is_api l).

(** lines 193-200: the exit status of the script. *)
Definition script (m : machine) : Z * list sline :=
  match main m with
  | (Ok _, tr) => (0, tr)
  | (Raise KeyboardInterrupt, tr) => (0, tr ++ [Cancelled])
  | (Raise (Exception e), tr) => (1, tr ++ [Unexpected e])
  end.

(** A machine on which everything is in place, except as the parameter
    says for the import of [dotenv]. *)
Definition demo_machine (dotenv : import_result) : machine :=
  {| import_module := fun module => if String.eqb module "dotenv" then dotenv else Imported;
     env_file_exists := true;
     load_env := Ok tt;
     api_key := Some "AIzaSyA-0123456789-abcdefghijklmnopqrstu";
     windows := Ok [{| title := "WhatsApp"; width := 1280; height := 800 |}];
     config_exists := false;
     config_json := Raise (Exception "[Errno 2] No such file or directory: 'config.json'");
     gemini_model := Ok tt;
     gemini_reply := Ok "API works!" |}.

End CheckSetup.

(** ** Basic facts *)

Lemma Qltb_true (a b : Q) : Qltb a b = true <-> (a < b)%Q.
Proof.
  unfold Qltb. destruct (Qlt_le_dec a b) as [Hlt | Hle].
  - tauto.
  - split; [discriminate | intros Hlt; exfalso; lra].
Qed.

Lemma Qltb_false (a b : Q) : Qltb a b = false <-> (b <= a)%Q.
Proof.
  unfold Qltb. destruct (Qlt_le_dec a b) as [Hlt | Hle].
  - split; [discriminate | intros Hle; exfalso; lra].
  - tauto.
Qed.

Lemma handled_nil : handled [].
Proof. intros msg []. Qed.

Lemma handled_app (tr1 tr2 : list event) :
  handled tr1 -> handled tr2 -> handled (tr1 ++ tr2).
Proof.
  intros H1 H2 msg [Hin | Hin]%in_app_iff.
  - destruct (H1 msg Hin) as (l & Hl & Hp). exists l. split; [exact Hl |].
    apply in_or_app. left. exact Hp.
  - destruct (H2 msg Hin) as (l & Hl & Hp). exists l. split; [exact Hl |].
    apply in_or_app. right. exact Hp.
Qed.


Lemma check_rate_limit_eq (now : Q) (st : bot_state) :
  check_rate_limit now st =
    if MAX_REPLIES_PER_HOUR <=? count (reply_counter (roll_window now st))
    then (Ok false, roll_window now st, [Print RateLimitReached])
    else (Ok true, roll_window now st, []).
Proof.
  unfold check_rate_limit, roll_window, bind, time_time, gets, modify, print, emit, ret.
  destruct (Qltb RATE_WINDOW (now - reset_time (reply_counter st))); cbn -[Z.leb].
  - reflexivity.
  - destruct (MAX_REPLIES_PER_HOUR <=? count (reply_counter st)); reflexivity.
Qed.

(** ** What the helpers guarantee *)


Ltac interrupt_in_script :=
  unfold interrupts;
  repeat match goal with
         | H : _ = Raise KeyboardInterrupt |- _ => rewrite H; clear H
         end;
  cbn [is_interrupt]; rewrite ?orb_true_r; reflexivity.

Ltac pick_line := cbn [In]; ((left; reflexivity) + (right; pick_line)).

Ltac handled_by_inspection :=
  let msg := fresh "msg" in
  let Hin := fresh "Hin" in
  intros msg Hin; cbn [In] in Hin;
  repeat match goal with
         | H : _ \/ _ |- _ => destruct H
         | H : False |- _ => destruct H
         end;
  try discriminate;
  match goal with
  | H : Raised _ = Raised _ |- _ =>
      injection H as <-; eexists; split; [| pick_line]; reflexivity
  end.

Ltac helper_leaf :=
  cbv beta iota;
  repeat split;
  solve [ reflexivity | exact I | discriminate | handled_by_inspection
        | intros _; interrupt_in_script | intros; discriminate ].

Lemma focus_whatsapp_post (env : script) (st : bot_state) :
  helper_post env plain st (focus_whatsapp env st).
Proof.
  unfold helper_post, focus_whatsapp, try_except, perform, bind, print, emit, raise, ret.
  destruct (focus_windows env) as [[|] | [m |]] eqn:E1; cbn;
    [destruct (focus_activate env) as [[] | [m |]] eqn:E2; cbn | | |];
    helper_leaf.
Qed.

Lemma get_chat_image_post (env : script) (st : bot_state) :
  helper_post env plain st (get_chat_image env st).
Proof.
  unfold helper_post, get_chat_image, try_except, perform, bind, print, emit, raise, ret.
  destruct (capture_windows env) as [[|] | [m |]] eqn:E1; cbn;
    [destruct (capture_shot env) as [img | [m |]] eqn:E2; cbn;
       [destruct (capture_debug env) as [[] | [m |]] eqn:E3; cbn | |] | | |];
    helper_leaf.
Qed.

Lemma click_on_chat_area_and_input_post (env : script) (st : bot_state) :
  helper_post env plain st (click_on_chat_area_and_input env st).
Proof.
  unfold helper_post, click_on_chat_area_and_input, try_except, perform, bind, print,
    emit, raise, ret.
  destruct (click_windows env) as [[|] | [m |]] eqn:E1; cbn;
    [destruct (click_chat env) as [[] | [m |]] eqn:E2; cbn;
       [destruct (click_input env) as [[] | [m |]] eqn:E3; cbn | |] | | |];
    helper_leaf.
Qed.

(** [send_reply] prints [Sent] exactly when it returns [True], and one of
    its two failure lines exactly when it returns [False]. *)
Lemma send_reply_post (env : script) (message : json) (st : bot_state) :
  helper_post env (fun ev => plain ev || is_sent ev || is_send_failure ev) st
    (send_reply env message st)
  /\ reply_sent (run_trace (send_reply env message st))
     = match run_result (send_reply env message st) with Ok true => true | _ => false end
  /\ send_failed (run_trace (send_reply env message st))
     = match run_result (send_reply env message st) with Ok false => true | _ => false end.
Proof.
  unfold helper_post, send_reply, click_on_chat_area_and_input, try_except, perform, bind,
    print, emit, raise, ret.
  destruct (click_windows env) as [[|] | [m |]] eqn:E1; cbn;
    [destruct (click_chat env) as [[] | [m |]] eqn:E2; cbn;
       [destruct (click_input env) as [[] | [m |]] eqn:E3; cbn;
          [destruct (typing env) as [[] | [m |]] eqn:E4; cbn;
             [destruct (press_enter env) as [[] | [m |]] eqn:E5; cbn | |] | |] | |] | | |];
    helper_leaf.
Qed.

(** *** [split] always yields a field, and two when the separator occurs *)

Lemma split_go_cons (sep : string) (s : string) :
  forall skip cur, exists a t, PyStr.split_go sep skip cur s = a :: t.
Proof.
  induction s as [| c s IH]; intros skip cur; cbn [PyStr.split_go].
  - eauto.
  - destruct skip as [| k]; [| apply IH].
    destruct (String.prefix sep (String c s)); [eauto | apply IH].
Qed.

Lemma prefix_empty_r (sep : string) : String.prefix sep EmptyString = true -> sep = EmptyString.
Proof. destruct sep; [reflexivity | discriminate]. Qed.

Lemma split_go_two (sep : string) (s : string) :
  sep <> EmptyString -> PyStr.contains sep s = true ->
  forall cur, exists a b t, PyStr.split_go sep 0 cur s = a :: b :: t.
Proof.
  intros Hsep. induction s as [| c s IH]; intros Hin cur.
  - cbn in Hin. rewrite orb_false_r in Hin. apply prefix_empty_r in Hin. contradiction.
  - cbn [PyStr.contains] in Hin. cbn [PyStr.split_go].
    destruct (String.prefix sep (String c s)).
    + destruct (split_go_cons sep s (String.length sep - 1) EmptyString) as (b & t & ->).
      eauto.
    + apply IH. exact Hin.
Qed.


Lemma strip_code_fence_eq (text : string) (st : bot_state) :
  strip_code_fence text st = (Ok (fence_payload text), st, []).
Proof.
  unfold strip_code_fence, fence_payload.
  destruct (PyStr.contains "```json" text) eqn:Ejson.
  - destruct (split_go_two "```json" text ltac:(discriminate) Ejson EmptyString)
      as (a & b & t & Hsplit).
    destruct (split_go_cons "```" b 0%nat EmptyString) as (a' & t' & Hsplit').
    unfold bind, index, PyStr.split. rewrite Hsplit. cbn. rewrite Hsplit'. reflexivity.
  - destruct (PyStr.contains "```" text) eqn:Etick; [| reflexivity].
    destruct (split_go_two "```" text ltac:(discriminate) Etick EmptyString)
      as (a & b & t & Hsplit).
    destruct (split_go_cons "```" b 0%nat EmptyString) as (a' & t' & Hsplit').
    unfold bind, index, PyStr.split. rewrite Hsplit. cbn. rewrite Hsplit'. reflexivity.
Qed.


Lemma cleanup_history_eq (current_time : Q) (st : bot_state) :
  cleanup_history current_time st = (Ok tt, set_history ∅ st, []).
Proof.
  unfold cleanup_history, bind, modify, gets. cbn [message_history set_history].
  rewrite map_to_list_empty. reflexivity.
Qed.

Lemma record_reply_eq (img_hash : string) (now : Q) (st : bot_state) :
  record_reply img_hash now st =
    (Ok tt,
     set_count (count (reply_counter st) + 1)
       (set_history (<[img_hash := now]> (message_history st)) st),
     []).
Proof. reflexivity. Qed.

Arguments check_rate_limit : simpl never.
Arguments cleanup_history : simpl never.
Arguments record_reply : simpl never.
Arguments cooldown_active : simpl never.
Arguments roll_window : simpl never.
Arguments fence_payload : simpl never.
Arguments analyze_message_and_generate_reply : simpl never.
Arguments truthy : simpl never.
Arguments dict_get : simpl never.
Arguments dict_lookup : simpl never.

Section Facts.

Variable json_loads : string -> loads_result.

Local Abbreviation analyze := (analyze_message_and_generate_reply json_loads).

(** The oracle call in closed form, by the outcome of the request and of
    the parse. *)
Lemma analyze_eq (env : script) (img : Image) (st : bot_state) :
  analyze env img st =
    match generate_content env with
    | Raise KeyboardInterrupt =>
        (Raise KeyboardInterrupt, st, [Call (GenerateContent img); Raised KeyboardInterrupt])
    | Raise (Exception e) =>
        (Ok no_reply, st,
         [Call (GenerateContent img); Raised (Exception e); Print (GeminiError e)])
    | Ok text =>
        let payload := fence_payload (PyStr.strip text) in
        match json_loads payload with
        | JSONDecodeError e =>
            (Ok no_reply, st,
             [Call (GenerateContent img); Raised (Exception e);
              Print (JSONParsingError e); Print (RawResponse payload)])
        | Parsed (JDict data) =>
            (Ok data, st,
             [Call (GenerateContent img);
              Print (AIDetected (dict_get data "message_detected" (JStr "N/A")));
              Print (AIShouldReply (dict_get data "should_reply" (JBool false)))])
        | Parsed v =>
            let e := "'" +:+ type_name v +:+ "' object has no attribute 'get'" in
            (Ok no_reply, st,
             [Call (GenerateContent img); Raised (Exception e); Print (GeminiError e)])
        end
    end.
Proof.
  unfold analyze_message_and_generate_reply, try_except, perform, bind, print, emit,
    raise, ret.
  destruct (generate_content env) as [text | [e |]]; cbn; try reflexivity.
  rewrite strip_code_fence_eq. cbn.
  destruct (json_loads (fence_payload (PyStr.strip text))) as [[] | e]; reflexivity.
Qed.

Lemma analyze_post (env : script) (img : Image) (st : bot_state) :
  helper_post env (fun ev => plain ev || is_oracle_call ev) st (analyze env img st).
Proof.
  rewrite analyze_eq. unfold helper_post.
  destruct (generate_content env) as [text | [e |]] eqn:E1;
    [cbv zeta; destruct (json_loads (fence_payload (PyStr.strip text))) as [[] | e] | |];
    cbn [run_result run_state run_trace fst snd];
    helper_leaf.
Qed.

End Facts.

Lemma interrupts_false (env : script) :
  interrupts env = false ->
  focus_windows env <> Raise KeyboardInterrupt
  /\ focus_activate env <> Raise KeyboardInterrupt
  /\ capture_windows env <> Raise KeyboardInterrupt
  /\ capture_shot env <> Raise KeyboardInterrupt
  /\ capture_debug env <> Raise KeyboardInterrupt
  /\ generate_content env <> Raise KeyboardInterrupt
  /\ click_windows env <> Raise KeyboardInterrupt
  /\ click_chat env <> Raise KeyboardInterrupt
  /\ click_input env <> Raise KeyboardInterrupt
  /\ typing env <> Raise KeyboardInterrupt
  /\ press_enter env <> Raise KeyboardInterrupt
  /\ sleep_interrupted env = false
  /\ handler_sleep_interrupted env = false.
Proof.
  unfold interrupts. intros H.
  repeat (apply orb_false_iff in H; destruct H as [H ?]).
  repeat split; try assumption;
    intros E; rewrite E in *; discriminate.
Qed.

Lemma rate_denied_no_roll (now : Q) (st : bot_state) :
  (MAX_REPLIES_PER_HOUR <=? count (reply_counter (roll_window now st))) = true ->
  roll_window now st = st.
Proof.
  unfold roll_window.
  destruct (Qltb RATE_WINDOW (now - reset_time (reply_counter st))); [discriminate | reflexivity].
Qed.

Section Loop.

Variable md5_hexdigest : string -> string.
Variable json_loads : string -> loads_result.

Local Abbreviation summary := (iteration_summary md5_hexdigest).
Local Abbreviation step := (iteration md5_hexdigest json_loads).


Ltac split_result_bool x := destruct x as [[|] | [? |]] eqn:?.
Ltac split_result_unit x := destruct x as [[] | [? |]] eqn:?.
Ltac split_result x := destruct x as [? | [? |]] eqn:?.

Ltac explode_step :=
  lazymatch goal with
  | |- context [match focus_windows ?e with _ => _ end] => split_result_bool (focus_windows e)
  | |- context [match focus_activate ?e with _ => _ end] => split_result_unit (focus_activate e)
  | |- context [match capture_windows ?e with _ => _ end] => split_result_bool (capture_windows e)
  | |- context [match capture_shot ?e with _ => _ end] => split_result (capture_shot e)
  | |- context [match capture_debug ?e with _ => _ end] => split_result_unit (capture_debug e)
  | |- context [if cooldown_active ?h ?k ?n then _ else _] =>
      destruct (cooldown_active h k n) eqn:?
  | |- context [check_rate_limit ?n ?s] => rewrite (check_rate_limit_eq n s)
  | |- context [if (MAX_REPLIES_PER_HOUR <=? ?c) then _ else _] =>
      destruct (MAX_REPLIES_PER_HOUR <=? c) eqn:?
  | |- context [analyze_message_and_generate_reply ?j ?e ?i ?s] => rewrite (analyze_eq j e i s)
  | |- context [match generate_content ?e with _ => _ end] => split_result (generate_content e)
  | |- context [match json_loads ?p with _ => _ end] =>
      destruct (json_loads p) as [[] | ?] eqn:?
  | |- context [if truthy ?v then _ else _] => destruct (truthy v) eqn:?
  | |- context [match dict_lookup ?d ?k with _ => _ end] =>
      destruct (dict_lookup d k) eqn:?
  | |- context [match click_windows ?e with _ => _ end] => split_result_bool (click_windows e)
  | |- context [match click_chat ?e with _ => _ end] => split_result_unit (click_chat e)
  | |- context [match click_input ?e with _ => _ end] => split_result_unit (click_input e)
  | |- context [match typing ?e with _ => _ end] => split_result_unit (typing e)
  | |- context [match press_enter ?e with _ => _ end] => split_result_unit (press_enter e)
  | |- context [record_reply ?h ?n ?s] => rewrite (record_reply_eq h n s)
  | |- context [cleanup_history ?n ?s] => rewrite (cleanup_history_eq n s)
  | |- context [if sleep_interrupted ?e then _ else _] => destruct (sleep_interrupted e) eqn:?
  | |- context [if handler_sleep_interrupted ?e then _ else _] =>
      destruct (handler_sleep_interrupted e) eqn:?
  end;
  cbv beta iota zeta delta [negb andb].

Ltac explode :=
  unfold iteration, try_except_interrupt, loop_body, focus_whatsapp, get_chat_image,
    send_reply, click_on_chat_area_and_input, time_sleep, time_time, getitem,
    try_except, perform, bind, print, emit, raise, gets, modify, ret, DEBUG_MODE;
  cbv beta iota zeta;
  repeat explode_step.

Ltac gate := unfold reached_gate; repeat split; eassumption.

Ltac no_gate :=
  let img := fresh "img" in
  intros img (? & ? & ? & ? & ?); congruence.

Ltac no_interrupt :=
  let H := fresh "Hquiet" in
  intros H; apply interrupts_false in H;
  destruct H as (? & ? & ? & ? & ? & ? & ? & ? & ? & ? & ? & ? & ?);
  first [ congruence | repeat split; reflexivity ].

Ltac which_path :=
  first
    [ solve [ eapply path_skipped; [no_gate | reflexivity] ]
    | solve [ eapply path_cooldown; [gate | eassumption | reflexivity] ]
    | solve [ match goal with
              | H : (MAX_REPLIES_PER_HOUR <=? count (reply_counter (roll_window ?n ?s))) = true
                |- _ =>
                  let E := fresh "E" in
                  pose proof (rate_denied_no_roll n s H) as E;
                  rewrite E in H |- *;
                  eapply path_rate_limited;
                  [gate | eassumption | apply Z.leb_le; exact H | exact E | reflexivity]
              end ]
    | solve [ eapply path_queried;
              [ gate | eassumption | apply Z.leb_gt; eassumption | reflexivity ] ]
    | solve [ eapply path_replied;
              [ gate | eassumption | apply Z.leb_gt; eassumption | reflexivity
              | reflexivity ] ] ].

Lemma iteration_holds (env : script) (st : bot_state) :
  holds (summary env st) (step env st).
Proof.
  set (P := summary env st).
  explode.
  all: subst P; unfold holds, iteration_summary;
    cbn [run_result run_state run_trace fst snd app];
    (split; [exact I |]); (split; [first [exact handled_nil | handled_by_inspection] |]);
    (split; [reflexivity |]); (split; [no_interrupt |]).
  all: which_path.
Qed.

End Loop.

(** ** Consequences of the case analysis *)

Lemma observe_inv (tr : list event) (a b c d e : bool) :
  observe tr = (a, b, c, d, e) ->
  cooldown_suppressed tr = a /\ rate_limited tr = b /\ oracle_invoked tr = c
  /\ send_failed tr = d /\ reply_sent tr = e.
Proof. unfold observe. intros [= -> -> -> -> ->]. repeat split. Qed.

Lemma reached_gate_unique (env : script) (img img' : Image) :
  reached_gate env img -> reached_gate env img' -> img = img'.
Proof. intros (_ & _ & _ & H & _) (_ & _ & _ & H' & _). congruence. Qed.

Lemma roll_window_history (now : Q) (st : bot_state) :
  message_history (roll_window now st) = message_history st.
Proof.
  unfold roll_window.
  destruct (Qltb RATE_WINDOW (now - reset_time (reply_counter st))); reflexivity.
Qed.

Lemma roll_window_within (now : Q) (st : bot_state) :
  (now - reset_time (reply_counter st) <= RATE_WINDOW)%Q -> roll_window now st = st.
Proof.
  intros H. unfold roll_window.
  destruct (Qltb RATE_WINDOW (now - reset_time (reply_counter st))) eqn:E; [| reflexivity].
  apply Qltb_true in E. exfalso. lra.
Qed.

Lemma roll_window_expired (now : Q) (st : bot_state) :
  (RATE_WINDOW < now - reset_time (reply_counter st))%Q ->
  roll_window now st = set_reset_time now (set_count 0 st).
Proof.
  intros H. unfold roll_window. apply Qltb_true in H. rewrite H. reflexivity.
Qed.

Lemma roll_window_count (now : Q) (st : bot_state) :
  count (reply_counter st) <= MAX_REPLIES_PER_HOUR ->
  count (reply_counter (roll_window now st)) <= MAX_REPLIES_PER_HOUR.
Proof.
  intros H. unfold roll_window.
  destruct (Qltb RATE_WINDOW (now - reset_time (reply_counter st))); [| exact H].
  cbn. unfold MAX_REPLIES_PER_HOUR. lia.
Qed.

Lemma no_sent_no_replies (tr : list event) : reply_sent tr = false -> replies tr = 0%nat.
Proof.
  unfold reply_sent, replies. induction tr as [| ev tr IH]; cbn; [reflexivity |].
  intros [Hev Htr]%orb_false_iff. rewrite Hev. exact (IH Htr).
Qed.

Lemma replies_app (tr1 tr2 : list event) : replies (tr1 ++ tr2) = (replies tr1 + replies tr2)%nat.
Proof. unfold replies. rewrite List.filter_app, length_app. reflexivity. Qed.

Lemma sleeps_app (tr1 tr2 : list event) : sleeps (tr1 ++ tr2) = (sleeps tr1 + sleeps tr2)%nat.
Proof. unfold sleeps. rewrite List.filter_app, length_app. reflexivity. Qed.

Lemma begun_app (tr1 tr2 : list event) : begun (tr1 ++ tr2) = (begun tr1 + begun tr2)%nat.
Proof. unfold begun. rewrite List.filter_app, length_app. reflexivity. Qed.

(** *** Fence stripping on a fenced response *)

Lemma append_nil (t : string) : EmptyString +:+ t = t.
Proof. reflexivity. Qed.

Lemma append_cons (c : ascii) (s t : string) : String c s +:+ t = String c (s +:+ t).
Proof. reflexivity. Qed.

Lemma append_empty_r (s : string) : s +:+ EmptyString = s.
Proof.
  induction s as [| c s IH]; [reflexivity |]. rewrite append_cons, IH. reflexivity.
Qed.

Lemma append_snoc (cur : string) (c : ascii) (s : string) :
  (cur +:+ String c EmptyString) +:+ s = cur +:+ String c s.
Proof.
  induction cur as [| a cur IH]; [reflexivity |]. rewrite !append_cons, IH. reflexivity.
Qed.

Lemma prefix_tick_mismatch (sep_tail : string) (c : ascii) (s : string) :
  Ascii.eqb c "`" = false -> String.prefix (String "`" sep_tail) (String c s) = false.
Proof.
  intros H. cbn [String.prefix].
  destruct (ascii_dec "`" c) as [E | _]; [| reflexivity].
  subst c. rewrite Ascii.eqb_refl in H. discriminate.
Qed.

(** A field without backticks is read through in one go by a scan for a
    separator that starts with a backtick. *)
Lemma split_go_field (sep_tail : string) (body : string) :
  forall cur rest,
    no_backtick body = true ->
    PyStr.split_go (String "`" sep_tail) 0 cur (body +:+ rest)
    = PyStr.split_go (String "`" sep_tail) 0 (cur +:+ body) rest.
Proof.
  induction body as [| c body IH]; intros cur rest Hno.
  - rewrite append_nil, append_empty_r. reflexivity.
  - cbn [no_backtick] in Hno. apply andb_true_iff in Hno. destruct Hno as (Hc & Hno).
    apply negb_true_iff in Hc.
    rewrite append_cons. cbn [PyStr.split_go].
    rewrite (prefix_tick_mismatch sep_tail c _ Hc), (IH _ _ Hno), append_snoc.
    reflexivity.
Qed.

Lemma prefix_nil (s : string) : String.prefix EmptyString s = true.
Proof. destruct s; reflexivity. Qed.

Lemma prefix_append (p s : string) : String.prefix p (p +:+ s) = true.
Proof.
  induction p as [| c p IH]; [apply prefix_nil |].
  rewrite append_cons. cbn [String.prefix].
  destruct (ascii_dec c c) as [_ | Hne]; [exact IH | contradiction].
Qed.

Lemma contains_prefix (sep s : string) :
  String.prefix sep s = true -> PyStr.contains sep s = true.
Proof. intros H. destruct s; cbn [PyStr.contains]; rewrite H; reflexivity. Qed.

Lemma split_go_match (sep : string) (c : ascii) (s cur : string) :
  String.prefix sep (String c s) = true ->
  PyStr.split_go sep 0 cur (String c s)
  = cur :: PyStr.split_go sep (String.length sep - 1) EmptyString s.
Proof. intros H. cbn [PyStr.split_go]. rewrite H. reflexivity. Qed.

(** A response that is exactly a [json] fence around a text without
    backticks: the payload is the stripped text. *)
Lemma fence_payload_json (body : string) :
  no_backtick body = true ->
  fence_payload ("```json" +:+ body +:+ "```") = PyStr.strip body.
Proof.
  intros Hno. unfold fence_payload.
  rewrite (contains_prefix _ _ (prefix_append "```json" (body +:+ "```"))).
  unfold PyStr.split.
  change ("```json" +:+ body +:+ "```") with (String "`" ("``json" +:+ body +:+ "```")).
  rewrite (split_go_match "```json" "`" ("``json" +:+ body +:+ "```") ""
             (prefix_append "```json" (body +:+ "```"))).
  change (PyStr.split_go "```json" (String.length "```json" - 1) ""
            ("``json" +:+ body +:+ "```"))
    with (PyStr.split_go "```json" 0 "" (body +:+ "```")).
  cbn [nth].
  rewrite (split_go_field "``json" body "" "```" Hno), append_nil.
  change (PyStr.split_go "```json" 0 body "```") with [((body +:+ "`") +:+ "`") +:+ "`"].
  cbn [nth]. rewrite !append_snoc.
  rewrite (split_go_field "``" body "" "```" Hno), append_nil.
  reflexivity.
Qed.

(** An opening [json] fence that is never closed, before a text without
    backticks: the payload is the stripped text after the fence. *)
Lemma fence_payload_unclosed (body : string) :
  no_backtick body = true ->
  fence_payload ("```json" +:+ body) = PyStr.strip body.
Proof.
  intros Hno.
  assert (Halone : forall t cur, PyStr.split_go (String "`" t) 0 cur body = [cur +:+ body]).
  { intros t cur. rewrite <- (append_empty_r body) at 1.
    rewrite (split_go_field t body cur "" Hno). reflexivity. }
  unfold fence_payload.
  rewrite (contains_prefix _ _ (prefix_append "```json" body)).
  unfold PyStr.split.
  change ("```json" +:+ body) with (String "`" ("``json" +:+ body)).
  rewrite (split_go_match "```json" "`" ("``json" +:+ body) ""
             (prefix_append "```json" body)).
  change (PyStr.split_go "```json" (String.length "```json" - 1) "" ("``json" +:+ body))
    with (PyStr.split_go "```json" 0 "" body).
  cbn [nth].
  rewrite (Halone "``json" ""), append_nil. cbn [nth].
  rewrite (Halone "``" ""), append_nil. reflexivity.
Qed.

Section Claims.

Variable md5_hexdigest : string -> string.
Variable json_loads : string -> loads_result.

Local Abbreviation fingerprint := (generate_image_hash md5_hexdigest).
Local Abbreviation analyze := (analyze_message_and_generate_reply json_loads).
Local Abbreviation step := (iteration md5_hexdigest json_loads).
Local Abbreviation run := (main md5_hexdigest json_loads).

Lemma step_path (env : script) (st : bot_state) :
  path md5_hexdigest env st (run_state (step env st)) (run_trace (step env st)).
Proof. apply (iteration_holds md5_hexdigest json_loads env st). Qed.

Lemma step_caught (env : script) (st : bot_state) : caught (run_result (step env st)).
Proof. apply (iteration_holds md5_hexdigest json_loads env st). Qed.

Lemma step_handled (env : script) (st : bot_state) : handled (run_trace (step env st)).
Proof. apply (iteration_holds md5_hexdigest json_loads env st). Qed.

Lemma step_begun (env : script) (st : bot_state) : begun (run_trace (step env st)) = 1%nat.
Proof. apply (iteration_holds md5_hexdigest json_loads env st). Qed.

Lemma step_uninterrupted (env : script) (st : bot_state) :
  interrupts env = false ->
  run_result (step env st) = Ok Continue
  /\ sleeps (run_trace (step env st)) = 1%nat
  /\ last (run_trace (step env st)) = Some (Call (Sleep SCAN_INTERVAL)).
Proof. apply (iteration_holds md5_hexdigest json_loads env st). Qed.

(** The cooldown test, read on the clock: with an entry [T] for the
    fingerprint, it holds exactly while less than the cooldown has passed. *)
Lemma cooldown_active_iff (history : gmap string Q) (img_hash : string) (T now : Q) :
  history !! img_hash = Some T ->
  cooldown_active history img_hash now = true <-> (now - T < REPLY_COOLDOWN)%Q.
Proof.
  intros H. unfold cooldown_active. rewrite H. cbn [default]. apply Qltb_true.
Qed.

(** At the gate, the iteration is suppressed by the cooldown exactly when
    the cooldown test holds; the state is then untouched and the oracle is
    not asked. *)
Lemma gate_cooldown (env : script) (st : bot_state) (img : Image) :
  reached_gate env img ->
  cooldown_suppressed (run_trace (step env st))
  = cooldown_active (message_history st) (fingerprint img) (clock_gate env).
Proof.
  intros Hg. pose proof (step_path env st) as Hp.
  remember (run_state (step env st)) as st' eqn:Est.
  remember (run_trace (step env st)) as tr eqn:Etr.
  destruct Hp as [tr Hno Ho | img' tr Hg' Hc Ho | img' tr Hg' Hc _ _ Ho
                 | img' tr f Hg' Hc _ Ho | img' tr Hg' Hc _ Ho _];
    apply observe_inv in Ho; destruct Ho as (-> & _);
    try (rewrite (reached_gate_unique env img img' Hg Hg'), Hc; reflexivity).
  exfalso. exact (Hno img Hg).
Qed.

Lemma suppressed_untouched (env : script) (st : bot_state) :
  (cooldown_suppressed (run_trace (step env st)) = true
   \/ rate_limited (run_trace (step env st)) = true) ->
  run_state (step env st) = st
  /\ oracle_invoked (run_trace (step env st)) = false
  /\ reply_sent (run_trace (step env st)) = false.
Proof.
  intros Hs. pose proof (step_path env st) as Hp.
  remember (run_state (step env st)) as st' eqn:Est.
  remember (run_trace (step env st)) as tr eqn:Etr.
  destruct Hp as [tr Hno Ho | img' tr Hg' Hc Ho | img' tr Hg' Hc _ _ Ho
                 | img' tr f Hg' Hc _ Ho | img' tr Hg' Hc _ Ho _];
    apply observe_inv in Ho; destruct Ho as (Ho1 & Ho2 & Ho3 & Ho4 & Ho5);
    rewrite Ho1, Ho2 in Hs; destruct Hs as [Hs | Hs]; try discriminate;
    repeat split; assumption.
Qed.

(** C7: with an entry [F -> T] in the ledger, the gate check at time
    [T + d] suppresses if and only if [d < REPLY_COOLDOWN]; at exactly
    [d = REPLY_COOLDOWN] it does not suppress.  A suppressed iteration
    leaves the state as it was and does not invoke the oracle. *)
Theorem cooldown_boundary (env : script) (st : bot_state) (img : Image) (T d : Q) :
  reached_gate env img ->
  message_history st !! fingerprint img = Some T ->
  (clock_gate env == T + d)%Q ->
  (cooldown_suppressed (run_trace (step env st)) = true <-> (d < REPLY_COOLDOWN)%Q)
  /\ ((d == REPLY_COOLDOWN)%Q -> cooldown_suppressed (run_trace (step env st)) = false)
  /\ ((d < REPLY_COOLDOWN)%Q ->
      run_state (step env st) = st /\ oracle_invoked (run_trace (step env st)) = false).
Proof.
  intros Hg Hh Hnow.
  assert (Hiff : cooldown_suppressed (run_trace (step env st)) = true <-> (d < REPLY_COOLDOWN)%Q).
  { rewrite (gate_cooldown env st img Hg), (cooldown_active_iff _ _ T _ Hh).
    split; intros H; lra. }
  split; [exact Hiff |]. split.
  - intros Hd. destruct (cooldown_suppressed (run_trace (step env st))); [| reflexivity].
    assert (Hlt : (d < REPLY_COOLDOWN)%Q) by (apply Hiff; reflexivity). exfalso. lra.
  - intros Hd. apply Hiff in Hd.
    destruct (suppressed_untouched env st (or_introl Hd)) as (? & ? & _). split; assumption.
Qed.


Lemma check_rate_limit_state (now : Q) (st : bot_state) :
  run_state (check_rate_limit now st) = roll_window now st.
Proof.
  rewrite check_rate_limit_eq.
  destruct (MAX_REPLIES_PER_HOUR <=? count (reply_counter (roll_window now st))); reflexivity.
Qed.

Lemma check_rate_limit_result (now : Q) (st : bot_state) :
  run_result (check_rate_limit now st)
  = Ok (negb (MAX_REPLIES_PER_HOUR <=? count (reply_counter (roll_window now st)))).
Proof.
  rewrite check_rate_limit_eq.
  destruct (MAX_REPLIES_PER_HOUR <=? count (reply_counter (roll_window now st))); reflexivity.
Qed.

(** Past the cooldown test, the rate-limit line is printed exactly when
    the limiter denies. *)
Lemma gate_rate_limit (env : script) (st : bot_state) (img : Image) :
  reached_gate env img ->
  cooldown_active (message_history st) (fingerprint img) (clock_gate env) = false ->
  rate_limited (run_trace (step env st))
  = (MAX_REPLIES_PER_HOUR <=? count (reply_counter (roll_window (clock_rate env) st))).
Proof.
  intros Hg Hcold. pose proof (step_path env st) as Hp.
  remember (run_state (step env st)) as st' eqn:Est.
  remember (run_trace (step env st)) as tr eqn:Etr.
  destruct Hp as [tr Hno Ho | img' tr Hg' Hc Ho | img' tr Hg' Hc Hcap Hroll Ho
                 | img' tr f Hg' Hc Hcap Ho | img' tr Hg' Hc Hcap Ho _];
    apply observe_inv in Ho; destruct Ho as (_ & -> & _).
  - exfalso. exact (Hno img Hg).
  - rewrite (reached_gate_unique env img img' Hg Hg') in Hcold. congruence.
  - rewrite Hroll. symmetry. apply Z.leb_le. exact Hcap.
  - symmetry. apply Z.leb_gt. exact Hcap.
  - symmetry. apply Z.leb_gt. exact Hcap.
Qed.

(** C9: after the bookkeeping of a successful send the history is empty.
    [message_history.clear()] runs before the pruning loop, so the entry
    recorded just before is removed with all the others, and the loop
    iterates over an empty snapshot and deletes nothing. *)
Theorem history_empty_after_send (env : script) (st : bot_state) :
  (reply_sent (run_trace (step env st)) = true ->
   message_history (run_state (step env st)) = ∅
   /\ run_state (step env st) = bookkept (roll_window (clock_rate env) st))
  /\ (forall (img_hash : string) (now current_time : Q),
        let recorded := run_state (record_reply img_hash now st) in
        message_history recorded !! img_hash = Some now
        /\ cleanup_history current_time recorded = (Ok tt, set_history ∅ recorded, [])
        /\ map_to_list (message_history (set_history ∅ recorded)) = []
        /\ message_history (run_state (cleanup_history current_time recorded)) !! img_hash
           = None).
Proof.
  split.
  - intros Hsent. pose proof (step_path env st) as Hp.
    remember (run_state (step env st)) as st' eqn:Est.
    remember (run_trace (step env st)) as tr eqn:Etr.
    destruct Hp as [tr Hno Ho | img' tr Hg' Hc Ho | img' tr Hg' Hc _ _ Ho
                   | img' tr f Hg' Hc _ Ho | img' tr Hg' Hc _ Ho _];
      apply observe_inv in Ho; destruct Ho as (_ & _ & _ & _ & Ho);
      rewrite Ho in Hsent; try discriminate.
    split; reflexivity.
  - intros img_hash now current_time recorded. subst recorded.
    rewrite record_reply_eq. cbn [run_state fst snd].
    rewrite cleanup_history_eq. cbn [run_state fst snd message_history set_history set_count].
    split; [apply lookup_insert_eq |].
    split; [reflexivity |].
    split; [apply map_to_list_empty | apply lookup_empty].
Qed.

(** C4: when [send_reply] reports failure, the iteration ends in the state
    it had before the injection attempt, that is, the state
    [check_rate_limit] left: the history is the one the iteration started
    with, the count is not incremented, and the cooldown test answers as
    before for every fingerprint. *)
Theorem failed_send_leaves_no_trace (env : script) (st : bot_state) :
  send_failed (run_trace (step env st)) = true ->
  run_state (step env st) = run_state (check_rate_limit (clock_rate env) st)
  /\ message_history (run_state (step env st)) = message_history st
  /\ count (reply_counter (run_state (step env st)))
     = count (reply_counter (run_state (check_rate_limit (clock_rate env) st)))
  /\ reply_sent (run_trace (step env st)) = false
  /\ (forall (img_hash : string) (now : Q),
        cooldown_active (message_history (run_state (step env st))) img_hash now
        = cooldown_active (message_history st) img_hash now).
Proof.
  intros Hfail. rewrite check_rate_limit_state.
  pose proof (step_path env st) as Hp.
  remember (run_state (step env st)) as st' eqn:Est.
  remember (run_trace (step env st)) as tr eqn:Etr.
  destruct Hp as [tr Hno Ho | img' tr Hg' Hc Ho | img' tr Hg' Hc _ _ Ho
                 | img' tr f Hg' Hc _ Ho | img' tr Hg' Hc _ Ho _];
    apply observe_inv in Ho; destruct Ho as (_ & _ & _ & Ho & Hs);
    rewrite Ho in Hfail; try discriminate.
  rewrite roll_window_history. repeat split. exact Hs.
Qed.

(** C6: an iteration suppressed by the rate limiter does not invoke the
    oracle and leaves the state, in particular the history, as it was; and
    the cooldown test comes first: when it suppresses, the rate limiter is
    not run (no rate-limit line, no window reset), whatever the count. *)
Theorem rate_limit_suppression (env : script) (st : bot_state) :
  (rate_limited (run_trace (step env st)) = true ->
   oracle_invoked (run_trace (step env st)) = false
   /\ run_state (step env st) = st
   /\ message_history (run_state (step env st)) = message_history st
   /\ cooldown_suppressed (run_trace (step env st)) = false)
  /\ (forall img : Image,
        reached_gate env img ->
        cooldown_active (message_history st) (fingerprint img) (clock_gate env) = true ->
        cooldown_suppressed (run_trace (step env st)) = true
        /\ rate_limited (run_trace (step env st)) = false
        /\ run_state (step env st) = st)
  /\ (forall img : Image,
        reached_gate env img ->
        cooldown_active (message_history st) (fingerprint img) (clock_gate env) = false ->
        MAX_REPLIES_PER_HOUR <= count (reply_counter st) ->
        (clock_rate env - reset_time (reply_counter st) <= RATE_WINDOW)%Q ->
        rate_limited (run_trace (step env st)) = true).
Proof.
  split; [| split].
  - intros Hrate.
    destruct (suppressed_untouched env st (or_intror Hrate)) as (Hst & Horacle & _).
    repeat split; try assumption.
    + rewrite Hst. reflexivity.
    + pose proof (step_path env st) as Hp.
      remember (run_state (step env st)) as st' eqn:Est.
      remember (run_trace (step env st)) as tr eqn:Etr.
      destruct Hp as [tr Hno Ho | img' tr Hg' Hc Ho | img' tr Hg' Hc _ _ Ho
                     | img' tr f Hg' Hc _ Ho | img' tr Hg' Hc _ Ho _];
        apply observe_inv in Ho; destruct Ho as (Ho1 & Ho2 & _);
        rewrite Ho2 in Hrate; try discriminate; exact Ho1.
  - intros img Hg Hcold.
    assert (Hs : cooldown_suppressed (run_trace (step env st)) = true)
      by (rewrite (gate_cooldown env st img Hg); exact Hcold).
    destruct (suppressed_untouched env st (or_introl Hs)) as (Hst & _ & _).
    repeat split; try assumption.
    pose proof (step_path env st) as Hp.
    remember (run_state (step env st)) as st' eqn:Est.
    remember (run_trace (step env st)) as tr eqn:Etr.
    destruct Hp as [tr Hno Ho | img' tr Hg' Hc Ho | img' tr Hg' Hc _ _ Ho
                   | img' tr f Hg' Hc _ Ho | img' tr Hg' Hc _ Ho _];
      apply observe_inv in Ho; destruct Ho as (Ho1 & Ho2 & _);
      rewrite Ho1 in Hs; try discriminate; exact Ho2.
  - intros img Hg Hcold Hcap Hwin.
    rewrite (gate_rate_limit env st img Hg Hcold), (roll_window_within _ _ Hwin).
    apply Z.leb_le. exact Hcap.
Qed.

(** *** The loop over several iterations *)

Lemma main_cons (env : script) (rest : list script) (st : bot_state) :
  run (env :: rest) st =
    match step env st with
    | (Ok Continue, st1, tr1) =>
        (run_result (run rest st1), run_state (run rest st1), tr1 ++ run_trace (run rest st1))
    | (Ok Break, st1, tr1) => (Ok Stopped, st1, tr1 ++ [])
    | (Raise e, st1, tr1) => (Raise e, st1, tr1)
    end.
Proof.
  cbn [main]. unfold bind.
  destruct (step env st) as [[[[] | e] st1] tr1]; try reflexivity.
  destruct (run rest st1) as [[r st2] tr2]. reflexivity.
Qed.

Lemma step_count_le (env : script) (st : bot_state) :
  count (reply_counter st) <= MAX_REPLIES_PER_HOUR ->
  count (reply_counter (run_state (step env st))) <= MAX_REPLIES_PER_HOUR.
Proof.
  intros Hle. pose proof (step_path env st) as Hp.
  remember (run_state (step env st)) as st' eqn:Est.
  remember (run_trace (step env st)) as tr eqn:Etr.
  destruct Hp as [tr Hno Ho | img' tr Hg' Hc Ho | img' tr Hg' Hc _ _ Ho
                 | img' tr f Hg' Hc Hcap Ho | img' tr Hg' Hc Hcap Ho _];
    try assumption.
  - apply roll_window_count. exact Hle.
  - cbn. lia.
Qed.

Lemma main_count_le (scripts : list script) (st : bot_state) :
  count (reply_counter st) <= MAX_REPLIES_PER_HOUR ->
  count (reply_counter (run_state (run scripts st))) <= MAX_REPLIES_PER_HOUR.
Proof.
  revert st. induction scripts as [| env rest IH]; intros st Hle; [exact Hle |].
  rewrite main_cons. pose proof (step_count_le env st Hle) as Hstep.
  destruct (step env st) as [[[[] | e] st1] tr1]; cbn [run_state fst snd] in *;
    try assumption.
  apply IH. exact Hstep.
Qed.

Lemma step_in_window (env : script) (st : bot_state) :
  in_window (reset_time (reply_counter st)) env ->
  count (reply_counter (run_state (step env st)))
  = count (reply_counter st) + Z.of_nat (replies (run_trace (step env st)))
  /\ reset_time (reply_counter (run_state (step env st))) = reset_time (reply_counter st).
Proof.
  unfold in_window. intros Hwin. pose proof (step_path env st) as Hp.
  remember (run_state (step env st)) as st' eqn:Est.
  remember (run_trace (step env st)) as tr eqn:Etr.
  destruct Hp as [tr Hno Ho | img' tr Hg' Hc Ho | img' tr Hg' Hc _ _ Ho
                 | img' tr f Hg' Hc Hcap Ho | img' tr Hg' Hc Hcap Ho Hone];
    apply observe_inv in Ho; destruct Ho as (_ & _ & _ & _ & Hs);
    rewrite ?(roll_window_within _ _ Hwin);
    try (rewrite (no_sent_no_replies _ Hs); split; [cbn; lia | reflexivity]).
  rewrite Hone. split; reflexivity.
Qed.

Lemma main_in_window (w : Q) (scripts : list script) (st : bot_state) :
  reset_time (reply_counter st) = w ->
  Forall (in_window w) scripts ->
  count (reply_counter (run_state (run scripts st)))
  = count (reply_counter st) + Z.of_nat (replies (run_trace (run scripts st)))
  /\ reset_time (reply_counter (run_state (run scripts st))) = w.
Proof.
  revert st. induction scripts as [| env rest IH]; intros st Hw Hall.
  - cbn. split; [lia | exact Hw].
  - inversion Hall as [| ? ? Henv Hrest]; subst.
    rewrite main_cons. destruct (step_in_window env st Henv) as (Hc & Hr).
    destruct (step env st) as [[[[] | e] st1] tr1]; cbn [run_state run_trace fst snd] in *.
    + destruct (IH st1 Hr Hrest) as (Hc' & Hr'). rewrite replies_app. split; [lia | exact Hr'].
    + rewrite app_nil_r. split; assumption.
    + split; assumption.
Qed.

Lemma step_at_cap (env : script) (st : bot_state) :
  MAX_REPLIES_PER_HOUR <= count (reply_counter st) ->
  in_window (reset_time (reply_counter st)) env ->
  oracle_invoked (run_trace (step env st)) = false
  /\ reply_sent (run_trace (step env st)) = false
  /\ run_state (step env st) = st.
Proof.
  unfold in_window. intros Hcap Hwin. pose proof (step_path env st) as Hp.
  remember (run_state (step env st)) as st' eqn:Est.
  remember (run_trace (step env st)) as tr eqn:Etr.
  destruct Hp as [tr Hno Ho | img' tr Hg' Hc Ho | img' tr Hg' Hc _ _ Ho
                 | img' tr f Hg' Hc Hlt Ho | img' tr Hg' Hc Hlt Ho _];
    apply observe_inv in Ho; destruct Ho as (_ & _ & Ho & _ & Hs);
    try (repeat split; assumption);
    rewrite (roll_window_within _ _ Hwin) in Hlt; lia.
Qed.

(** C3: the count never exceeds the cap; within one window it counts the
    replies sent, so after [cap] sends every further iteration of the
    window is suppressed before the oracle is asked; and once more than
    3600 seconds have passed since the window started, the check resets
    the count to 0 and allows a send. *)
Theorem rate_cap_enforced (scripts : list script) (st : bot_state) :
  let final := run_state (run scripts st) in
  (count (reply_counter st) <= MAX_REPLIES_PER_HOUR ->
   count (reply_counter final) <= MAX_REPLIES_PER_HOUR)
  /\ (Forall (in_window (reset_time (reply_counter st))) scripts ->
      count (reply_counter final)
      = count (reply_counter st) + Z.of_nat (replies (run_trace (run scripts st)))
      /\ reset_time (reply_counter final) = reset_time (reply_counter st))
  /\ (forall env : script,
        count (reply_counter st) = 0 ->
        Forall (in_window (reset_time (reply_counter st))) scripts ->
        replies (run_trace (run scripts st)) = Z.to_nat MAX_REPLIES_PER_HOUR ->
        in_window (reset_time (reply_counter st)) env ->
        oracle_invoked (run_trace (step env final)) = false
        /\ reply_sent (run_trace (step env final)) = false
        /\ run_state (step env final) = final)
  /\ (forall now : Q,
        (RATE_WINDOW < now - reset_time (reply_counter final))%Q ->
        check_rate_limit now final = (Ok true, set_reset_time now (set_count 0 final), [])).
Proof.
  intros final. subst final. split; [| split; [| split]].
  - apply main_count_le.
  - intros Hall. exact (main_in_window _ scripts st eq_refl Hall).
  - intros env Hzero Hall Hsent Hwin.
    destruct (main_in_window _ scripts st eq_refl Hall) as (Hc & Hr).
    apply step_at_cap.
    + rewrite Hc, Hzero, Hsent. unfold MAX_REPLIES_PER_HOUR. cbn. lia.
    + rewrite Hr. exact Hwin.
  - intros now Hexp. rewrite check_rate_limit_eq, (roll_window_expired _ _ Hexp). reflexivity.
Qed.

Lemma main_caught (scripts : list script) (st : bot_state) :
  caught (run_result (run scripts st)) /\ handled (run_trace (run scripts st)).
Proof.
  revert st. induction scripts as [| env rest IH]; intros st.
  - cbn. split; [exact I | exact handled_nil].
  - rewrite main_cons. pose proof (step_caught env st) as Hc.
    pose proof (step_handled env st) as Hh.
    destruct (step env st) as [[[[] | e] st1] tr1]; cbn [run_result run_trace fst snd] in *.
    + destruct (IH st1) as (Hc' & Hh'). split; [exact Hc' | apply handled_app; assumption].
    + rewrite app_nil_r. split; [exact I | exact Hh].
    + split; assumption.
Qed.

Lemma main_uninterrupted (scripts : list script) (st : bot_state) :
  forallb (fun env => negb (interrupts env)) scripts = true ->
  run_result (run scripts st) = Ok Running
  /\ begun (run_trace (run scripts st)) = length scripts
  /\ sleeps (run_trace (run scripts st)) = length scripts.
Proof.
  revert st. induction scripts as [| env rest IH]; intros st Hall.
  - cbn. repeat split.
  - cbn [forallb] in Hall. apply andb_true_iff in Hall. destruct Hall as (Henv & Hrest).
    apply negb_true_iff in Henv.
    rewrite main_cons. destruct (step_uninterrupted env st Henv) as (Hr & Hs & _).
    pose proof (step_begun env st) as Hb.
    destruct (step env st) as [[r st1] tr1]; cbn [run_result run_trace fst snd] in *.
    subst r. destruct (IH st1 Hrest) as (Hr' & Hb' & Hs').
    cbn [run_result run_trace fst snd length]. rewrite begun_app, sleeps_app.
    repeat split; [exact Hr' | lia | lia].
Qed.

Lemma some_script_interrupts (scripts : list script) :
  forallb (fun env => negb (interrupts env)) scripts = false ->
  exists env, In env scripts /\ interrupts env = true.
Proof.
  induction scripts as [| env rest IH]; cbn [forallb]; [discriminate |].
  destruct (interrupts env) eqn:E; cbn [negb andb].
  - intros _. exists env. split; [left; reflexivity | exact E].
  - intros H. destruct (IH H) as (env' & Hin & Hint).
    exists env'. split; [right; exact Hin | exact Hint].
Qed.

Lemma main_interrupted (scripts : list script) (st : bot_state) :
  run_result (run scripts st) <> Ok Running ->
  exists env, In env scripts /\ interrupts env = true.
Proof.
  intros Hexit.
  destruct (forallb (fun env => negb (interrupts env)) scripts) eqn:Hall.
  - exfalso. apply Hexit. apply (main_uninterrupted scripts st Hall).
  - apply some_script_interrupts. exact Hall.
Qed.

(** C8, as the code has it: no [Exception] raised in an iteration ends the
    loop; each is caught and reported by an error line, the iteration ends
    with the standard sleep and the next one begins.  The loop is left only
    by a [KeyboardInterrupt], which takes effect where it is raised. *)
Theorem loop_left_only_by_interrupt (scripts : list script) (st : bot_state) :
  caught (run_result (run scripts st))
  /\ handled (run_trace (run scripts st))
  /\ (forallb (fun env => negb (interrupts env)) scripts = true ->
      run_result (run scripts st) = Ok Running
      /\ begun (run_trace (run scripts st)) = length scripts
      /\ sleeps (run_trace (run scripts st)) = length scripts)
  /\ (run_result (run scripts st) <> Ok Running ->
      exists env, In env scripts /\ interrupts env = true).
Proof.
  destruct (main_caught scripts st) as (Hc & Hh).
  split; [exact Hc |]. split; [exact Hh |]. split.
  - apply main_uninterrupted.
  - apply main_interrupted.
Qed.

(** C5, as the code has it: a response whose text, after the fence
    stripping, is rejected by [json.loads] makes
    [analyze_message_and_generate_reply] return the no-reply dictionary
    ([should_reply] false, empty message and reply) without raising; the
    fence stripping itself never raises, and a response that is a [json]
    fence around a text hands that text, stripped, to the parser.
    Unbalanced fences do not make a response malformed: an opening
    [json] fence that is never closed is stripped as well, and whenever
    the payload parses to an object, that object is the decision that is
    returned. *)
Theorem malformed_response_is_no_reply (env : script) (img : Image) (st : bot_state)
    (text : string) :
  generate_content env = Ok text ->
  exists payload : string,
    strip_code_fence (PyStr.strip text) st = (Ok payload, st, [])
    /\ (forall e : string,
          json_loads payload = JSONDecodeError e ->
          analyze env img st
          = (Ok no_reply, st,
             [Call (GenerateContent img); Raised (Exception e);
              Print (JSONParsingError e); Print (RawResponse payload)]))
    /\ truthy (dict_get no_reply "should_reply" JNull) = false
    /\ dict_get no_reply "message_detected" JNull = JStr ""
    /\ dict_get no_reply "reply" JNull = JStr ""
    /\ (forall body : string,
          PyStr.strip text = "```json" +:+ body +:+ "```" ->
          no_backtick body = true ->
          payload = PyStr.strip body)
    /\ caught (run_result (analyze env img st))
    /\ (forall body : string,
          PyStr.strip text = "```json" +:+ body ->
          no_backtick body = true ->
          payload = PyStr.strip body)
    /\ (forall data : dict,
          json_loads payload = Parsed (JDict data) ->
          run_result (analyze env img st) = Ok data).
Proof.
  intros Htext. exists (fence_payload (PyStr.strip text)).
  split; [apply strip_code_fence_eq |]. split.
  - intros e He. rewrite analyze_eq, Htext. cbv zeta. rewrite He. reflexivity.
  - repeat split.
    + intros body Hbody Hno. rewrite Hbody. apply fence_payload_json. exact Hno.
    + apply (analyze_post json_loads env img st).
    + intros body Hbody Hno. rewrite Hbody. apply fence_payload_unclosed. exact Hno.
    + intros data Hd. rewrite analyze_eq, Htext. cbv zeta. rewrite Hd. reflexivity.
Qed.

End Claims.

(** C10, as the code has it: the window is reset only when strictly more
    than 3600 seconds have passed, so at exactly 3600 nothing is reset; the
    reset is part of the check, which then returns [True]; a check that
    returns [False] has left the state as it was. *)
Theorem rate_window_boundary (now : Q) (st : bot_state) :
  ((now - reset_time (reply_counter st) == RATE_WINDOW)%Q ->
   run_state (check_rate_limit now st) = st)
  /\ ((now - reset_time (reply_counter st) <= RATE_WINDOW)%Q ->
      run_state (check_rate_limit now st) = st)
  /\ ((RATE_WINDOW < now - reset_time (reply_counter st))%Q ->
      run_state (check_rate_limit now st) = set_reset_time now (set_count 0 st)
      /\ run_result (check_rate_limit now st) = Ok true)
  /\ (run_result (check_rate_limit now st) = Ok false ->
      run_state (check_rate_limit now st) = st).
Proof.
  rewrite check_rate_limit_state, check_rate_limit_result.
  repeat split.
  - intros H. apply roll_window_within. lra.
  - intros H. apply roll_window_within. exact H.
  - apply roll_window_expired. assumption.
  - rewrite roll_window_expired by assumption. reflexivity.
  - intros [= H]. apply negb_false_iff in H. apply rate_denied_no_roll. exact H.
Qed.

(** ** Concrete runs *)

(** C1, on the code: a reply for the fingerprint [abc123] is sent at time
    1000; the same frame captured 60 seconds later is not suppressed, the
    oracle is invoked and a second reply is sent.  The history was emptied
    by the bookkeeping of the first reply. *)
Theorem reply_repeated_within_cooldown :
  let first := iteration demo_md5 demo_loads (demo_script 1000) (initial_state 900) in
  let second := iteration demo_md5 demo_loads (demo_script 1060) (run_state first) in
  generate_image_hash demo_md5 demo_frame = "abc123"
  /\ reply_sent (run_trace first) = true
  /\ message_history (run_state first) !! "abc123" = None
  /\ cooldown_suppressed (run_trace second) = false
  /\ oracle_invoked (run_trace second) = true
  /\ reply_sent (run_trace second) = true
  /\ replies (run_trace (main demo_md5 demo_loads [demo_script 1000; demo_script 1060]
                           (initial_state 900))) = 2%nat.
Proof. vm_compute. repeat split. Qed.

(** C2, on the code: from an empty history and count 0, one successful
    send for [abc123] at time 1000 leaves count 1 and an empty history:
    the entry [abc123 -> 1000] is not there. *)
Theorem bookkeeping_drops_fresh_entry :
  let x := iteration demo_md5 demo_loads (demo_script 1000) (initial_state 900) in
  reply_sent (run_trace x) = true
  /\ count (reply_counter (run_state x)) = 1
  /\ message_history (run_state x) !! "abc123" = None
  /\ message_history (run_state x) = ∅.
Proof. vm_compute. repeat split. Qed.

(** C8, against "checked between iterations": a [KeyboardInterrupt] that
    arrives during the oracle call ends the loop inside the iteration,
    after the oracle was invoked and before any sleep; the second scripted
    iteration never begins. *)
Lemma interrupt_ends_loop_mid_iteration :
  let x := main demo_md5 demo_loads
             [scripted 1000 (Raise KeyboardInterrupt) (Ok true) (Ok tt); demo_script 1020]
             (initial_state 900) in
  run_result x = Ok Stopped
  /\ begun (run_trace x) = 1%nat
  /\ oracle_invoked (run_trace x) = true
  /\ sleeps (run_trace x) = 0%nat.
Proof. vm_compute. repeat split. Qed.

(** C10, against "mutates RateState even when it returns false": at the
    cap, the check made exactly 3600 seconds after the window start
    returns [False] and leaves the state as it was; made one second later
    it resets the window and returns [True]. *)
Lemma rate_check_mutates_only_when_allowing :
  let capped := set_count 10 (initial_state 0) in
  check_rate_limit 3600 capped = (Ok false, capped, [Print RateLimitReached])
  /\ check_rate_limit 3601 capped
     = (Ok true, set_reset_time 3601 (set_count 0 capped), []).
Proof. vm_compute. repeat split. Qed.

(** C5, against "JSON inside unbalanced fences resolves to no reply": a
    response that opens a [json] fence and never closes it is stripped
    to the JSON document, which is parsed; the decision asks for a reply
    and the iteration sends it. *)
Lemma unclosed_fence_is_answered :
  let env := scripted 1000 (Ok ("```json" +:+ newline +:+ demo_json)) (Ok true) (Ok tt) in
  let x := iteration demo_md5 demo_loads env (initial_state 900) in
  strip_code_fence ("```json" +:+ newline +:+ demo_json) (initial_state 900)
  = (Ok demo_json, initial_state 900, [])
  /\ run_result (analyze_message_and_generate_reply demo_loads env demo_frame (initial_state 900))
     = Ok demo_data
  /\ truthy (dict_get demo_data "should_reply" JNull) = true
  /\ observe (run_trace x) = (false, false, true, false, true)
  /\ reply_sent (run_trace x) = true
  /\ count (reply_counter (run_state x)) = 1.
Proof. vm_compute. repeat split. Qed.

(** ** The theorems at concrete inputs *)

Lemma demo_reaches_gate (now : Q) (response : result string) (window_at_send : result bool)
    (enter : result unit) :
  reached_gate (scripted now response window_at_send enter) demo_frame.
Proof. repeat split. Qed.

(** Scenario 2 of the specification, from the state it expects after the
    first reply: 60 seconds later the gate suppresses; 300 seconds later
    it does not. *)
Lemma cooldown_boundary_witness :
  (cooldown_suppressed
     (run_trace (iteration demo_md5 demo_loads (demo_script 1060) (replied_state 1000))) = true
   /\ run_state (iteration demo_md5 demo_loads (demo_script 1060) (replied_state 1000))
      = replied_state 1000
   /\ oracle_invoked
        (run_trace (iteration demo_md5 demo_loads (demo_script 1060) (replied_state 1000)))
      = false)
  /\ cooldown_suppressed
       (run_trace (iteration demo_md5 demo_loads (demo_script 1300) (replied_state 1000)))
     = false.
Proof.
  split.
  - destruct (cooldown_boundary demo_md5 demo_loads (demo_script 1060) (replied_state 1000)
                demo_frame 1000 60) as (Hiff & _ & Hst).
    + apply demo_reaches_gate.
    + vm_compute. reflexivity.
    + vm_compute. reflexivity.
    + assert (Hlt : (60 < REPLY_COOLDOWN)%Q) by reflexivity.
      split; [apply Hiff; exact Hlt | exact (Hst Hlt)].
  - destruct (cooldown_boundary demo_md5 demo_loads (demo_script 1300) (replied_state 1000)
                demo_frame 1000 300) as (_ & Hat & _).
    + apply demo_reaches_gate.
    + vm_compute. reflexivity.
    + vm_compute. reflexivity.
    + apply Hat. vm_compute. reflexivity.
Defined.

Lemma history_empty_after_send_witness :
  message_history
    (run_state (iteration demo_md5 demo_loads (demo_script 1000) (initial_state 900))) = ∅
  /\ run_state (iteration demo_md5 demo_loads (demo_script 1000) (initial_state 900))
     = bookkept (roll_window (clock_rate (demo_script 1000)) (initial_state 900)).
Proof.
  apply (proj1 (history_empty_after_send demo_md5 demo_loads (demo_script 1000)
                  (initial_state 900))).
  vm_compute. reflexivity.
Defined.

(** The window is gone when the reply is to be typed: [send_reply] returns
    [False] and nothing is recorded. *)
Lemma failed_send_leaves_no_trace_witness :
  message_history
    (run_state (iteration demo_md5 demo_loads
                  (scripted 1000 (Ok demo_response) (Ok false) (Ok tt)) (initial_state 900)))
  = message_history (initial_state 900)
  /\ count (reply_counter
       (run_state (iteration demo_md5 demo_loads
                     (scripted 1000 (Ok demo_response) (Ok false) (Ok tt))
                     (initial_state 900))))
     = count (reply_counter
         (run_state (check_rate_limit
                       (clock_rate (scripted 1000 (Ok demo_response) (Ok false) (Ok tt)))
                       (initial_state 900)))).
Proof.
  destruct (failed_send_leaves_no_trace demo_md5 demo_loads
              (scripted 1000 (Ok demo_response) (Ok false) (Ok tt)) (initial_state 900))
    as (_ & Hh & Hc & _).
  - vm_compute. reflexivity.
  - split; [exact Hh | exact Hc].
Defined.

(** Scenario 3 of the specification: the count is 10 of 10 and the
    fingerprint has never been seen. *)
Lemma rate_limit_suppression_witness :
  rate_limited
    (run_trace (iteration demo_md5 demo_loads (demo_script 1000)
                  (set_count 10 (initial_state 900)))) = true
  /\ oracle_invoked
       (run_trace (iteration demo_md5 demo_loads (demo_script 1000)
                     (set_count 10 (initial_state 900)))) = false
  /\ message_history
       (run_state (iteration demo_md5 demo_loads (demo_script 1000)
                     (set_count 10 (initial_state 900))))
     = message_history (set_count 10 (initial_state 900)).
Proof.
  destruct (rate_limit_suppression demo_md5 demo_loads (demo_script 1000)
              (set_count 10 (initial_state 900))) as (Hrate & _ & Hcap).
  assert (Hr : rate_limited
                 (run_trace (iteration demo_md5 demo_loads (demo_script 1000)
                               (set_count 10 (initial_state 900)))) = true).
  { apply (Hcap demo_frame).
    - apply demo_reaches_gate.
    - vm_compute. reflexivity.
    - vm_compute. discriminate.
    - vm_compute. discriminate. }
  destruct (Hrate Hr) as (Ho & _ & Hh & _).
  split; [exact Hr |]. split; [exact Ho | exact Hh].
Defined.

Lemma ten_sends_in_window : Forall (in_window 900) ten_sends.
Proof. unfold ten_sends. cbn [map]. repeat constructor; vm_compute; discriminate. Qed.

(** Ten replies in the window that started at 900; the eleventh iteration,
    at 4100, is suppressed without asking the oracle. *)
Lemma rate_cap_enforced_witness :
  count (reply_counter (run_state (main demo_md5 demo_loads ten_sends (initial_state 900))))
  = 10
  /\ oracle_invoked
       (run_trace (iteration demo_md5 demo_loads (demo_script 4100)
                     (run_state (main demo_md5 demo_loads ten_sends (initial_state 900)))))
     = false.
Proof.
  destruct (rate_cap_enforced demo_md5 demo_loads ten_sends (initial_state 900))
    as (_ & Hwin & Hcap & _).
  split.
  - destruct (Hwin ten_sends_in_window) as (Hc & _). rewrite Hc. vm_compute. reflexivity.
  - apply (Hcap (demo_script 4100)).
    + reflexivity.
    + exact ten_sends_in_window.
    + vm_compute. reflexivity.
    + vm_compute. discriminate.
Defined.

(** Plain prose instead of JSON. *)
Lemma malformed_response_is_no_reply_witness :
  run_result
    (analyze_message_and_generate_reply demo_loads
       (scripted 1000 (Ok "I can not see any new message.") (Ok true) (Ok tt))
       demo_frame (initial_state 900))
  = Ok no_reply.
Proof.
  destruct (malformed_response_is_no_reply demo_loads
              (scripted 1000 (Ok "I can not see any new message.") (Ok true) (Ok tt))
              demo_frame (initial_state 900) "I can not see any new message." eq_refl)
    as (payload & Hp & Hbad & _).
  vm_compute in Hp. injection Hp as <-.
  rewrite (Hbad "Expecting value: line 1 column 1 (char 0)" eq_refl). reflexivity.
Defined.

(** A transport error of the oracle in the first iteration: it is
    reported, the loop sleeps and goes on to the second iteration. *)
Lemma loop_left_only_by_interrupt_witness :
  run_result
    (main demo_md5 demo_loads
       [scripted 1000 (Raise (Exception "503 Service Unavailable")) (Ok true) (Ok tt);
        demo_script 1020]
       (initial_state 900)) = Ok Running
  /\ begun
       (run_trace
          (main demo_md5 demo_loads
             [scripted 1000 (Raise (Exception "503 Service Unavailable")) (Ok true) (Ok tt);
              demo_script 1020]
             (initial_state 900))) = 2%nat
  /\ sleeps
       (run_trace
          (main demo_md5 demo_loads
             [scripted 1000 (Raise (Exception "503 Service Unavailable")) (Ok true) (Ok tt);
              demo_script 1020]
             (initial_state 900))) = 2%nat.
Proof.
  apply (proj1 (proj2 (proj2 (loop_left_only_by_interrupt demo_md5 demo_loads
           [scripted 1000 (Raise (Exception "503 Service Unavailable")) (Ok true) (Ok tt);
            demo_script 1020]
           (initial_state 900))))).
  vm_compute. reflexivity.
Defined.

(** At the cap, exactly 3600 seconds after the window start 900. *)
Lemma rate_window_boundary_witness :
  run_state (check_rate_limit 4500 (set_count 10 (initial_state 900)))
  = set_count 10 (initial_state 900).
Proof.
  apply (proj1 (rate_window_boundary 4500 (set_count 10 (initial_state 900)))).
  vm_compute. reflexivity.
Defined.

(** ** A second pass over the iteration: the order of its effects *)

Ltac walk_result_bool x := destruct x as [[|] | [? |]] eqn:?.
Ltac walk_result_unit x := destruct x as [[] | [? |]] eqn:?.
Ltac walk_result x := destruct x as [? | [? |]] eqn:?.

Ltac walk_step json_loads :=
  lazymatch goal with
  | |- context [match focus_windows ?e with _ => _ end] => walk_result_bool (focus_windows e)
  | |- context [match focus_activate ?e with _ => _ end] => walk_result_unit (focus_activate e)
  | |- context [match capture_windows ?e with _ => _ end] => walk_result_bool (capture_windows e)
  | |- context [match capture_shot ?e with _ => _ end] => walk_result (capture_shot e)
  | |- context [match capture_debug ?e with _ => _ end] => walk_result_unit (capture_debug e)
  | |- context [if cooldown_active ?h ?k ?n then _ else _] =>
      destruct (cooldown_active h k n) eqn:?
  | |- context [check_rate_limit ?n ?s] => rewrite (check_rate_limit_eq n s)
  | |- context [if (MAX_REPLIES_PER_HOUR <=? ?c) then _ else _] =>
      destruct (MAX_REPLIES_PER_HOUR <=? c) eqn:?
  | |- context [analyze_message_and_generate_reply ?j ?e ?i ?s] => rewrite (analyze_eq j e i s)
  | |- context [match generate_content ?e with _ => _ end] => walk_result (generate_content e)
  | |- context [match json_loads ?p with _ => _ end] =>
      destruct (json_loads p) as [[] | ?] eqn:?
  | |- context [if truthy ?v then _ else _] => destruct (truthy v) eqn:?
  | |- context [match dict_lookup ?d ?k with _ => _ end] =>
      destruct (dict_lookup d k) eqn:?
  | |- context [match click_windows ?e with _ => _ end] => walk_result_bool (click_windows e)
  | |- context [match click_chat ?e with _ => _ end] => walk_result_unit (click_chat e)
  | |- context [match click_input ?e with _ => _ end] => walk_result_unit (click_input e)
  | |- context [match typing ?e with _ => _ end] => walk_result_unit (typing e)
  | |- context [match press_enter ?e with _ => _ end] => walk_result_unit (press_enter e)
  | |- context [record_reply ?h ?n ?s] => rewrite (record_reply_eq h n s)
  | |- context [cleanup_history ?n ?s] => rewrite (cleanup_history_eq n s)
  | |- context [if sleep_interrupted ?e then _ else _] => destruct (sleep_interrupted e) eqn:?
  | |- context [if handler_sleep_interrupted ?e then _ else _] =>
      destruct (handler_sleep_interrupted e) eqn:?
  end;
  cbv beta iota zeta delta [negb andb].

Ltac walk_open :=
  unfold iteration, try_except_interrupt, loop_body, focus_whatsapp, get_chat_image,
    send_reply, click_on_chat_area_and_input, time_sleep, time_time, getitem,
    try_except, perform, bind, print, emit, raise, gets, modify, ret, DEBUG_MODE;
  cbv beta iota zeta.

Ltac walk json_loads := walk_open; repeat walk_step json_loads.

Section Order.

Variable md5_hexdigest : string -> string.
Variable json_loads : string -> loads_result.

Local Abbreviation step := (iteration md5_hexdigest json_loads).
Local Abbreviation run := (main md5_hexdigest json_loads).

Lemma iteration_ordered (env : script) (st : bot_state) :
  holds (iteration_order env st) (step env st).
Proof.
  set (P := iteration_order env st).
  walk json_loads.
  all: subst P; unfold holds, iteration_order;
    cbn [run_result run_state run_trace fst snd app];
    (split; [reflexivity |]);
    (split; [first [discriminate | intros _; split; [assumption | reflexivity]] |]);
    do 8 (split; [reflexivity |]);
    first [discriminate | intros _; reflexivity].
Qed.

End Order.

(** ** Invariants of the loop *)

Lemma existsb_count {A} (p : A -> bool) (l : list A) :
  existsb p l = (1 <=? length (List.filter p l))%nat.
Proof.
  induction l as [| x l IH]; [reflexivity |].
  cbn [existsb List.filter]. destruct (p x); [reflexivity | exact IH].
Qed.

Lemma oracle_calls_app (tr1 tr2 : list event) :
  oracle_calls (tr1 ++ tr2) = (oracle_calls tr1 + oracle_calls tr2)%nat.
Proof. unfold oracle_calls. rewrite List.filter_app, length_app. reflexivity. Qed.

Lemma cooldown_suppressed_app (tr1 tr2 : list event) :
  cooldown_suppressed (tr1 ++ tr2) = cooldown_suppressed tr1 || cooldown_suppressed tr2.
Proof. apply existsb_app. Qed.

Lemma reply_sent_app (tr1 tr2 : list event) :
  reply_sent (tr1 ++ tr2) = reply_sent tr1 || reply_sent tr2.
Proof. apply existsb_app. Qed.

Lemma stopped_app (tr1 tr2 : list event) : stopped (tr1 ++ tr2) = stopped tr1 || stopped tr2.
Proof. apply existsb_app. Qed.

Lemma loop_error_app (tr1 tr2 : list event) :
  loop_error (tr1 ++ tr2) = loop_error tr1 || loop_error tr2.
Proof. apply existsb_app. Qed.

Section Invariants.

Variable md5_hexdigest : string -> string.
Variable json_loads : string -> loads_result.

Local Abbreviation fingerprint := (generate_image_hash md5_hexdigest).
Local Abbreviation step := (iteration md5_hexdigest json_loads).
Local Abbreviation run := (main md5_hexdigest json_loads).

(** One iteration keeps the history or empties it; it empties it exactly
    when it sends a reply, unless it was empty already. *)
Lemma step_history (env : script) (st : bot_state) :
  (reply_sent (run_trace (step env st)) = false
   /\ message_history (run_state (step env st)) = message_history st)
  \/ (reply_sent (run_trace (step env st)) = true
      /\ message_history (run_state (step env st)) = ∅).
Proof.
  pose proof (step_path md5_hexdigest json_loads env st) as Hp.
  remember (run_state (step env st)) as st' eqn:Est.
  remember (run_trace (step env st)) as tr eqn:Etr.
  destruct Hp as [tr Hno Ho | img' tr Hg' Hc Ho | img' tr Hg' Hc _ _ Ho
                 | img' tr f Hg' Hc _ Ho | img' tr Hg' Hc _ Ho _];
    apply observe_inv in Ho; destruct Ho as (_ & _ & _ & _ & ->).
  1-3: left; split; reflexivity.
  - left. split; [reflexivity | apply roll_window_history].
  - right. split; reflexivity.
Qed.

(** X1: over any number of iterations the history is never extended: at
    the end it is the history the run started with, or empty; it is empty
    as soon as one reply has been sent. *)
Theorem history_kept_or_emptied (scripts : list script) (st : bot_state) :
  (message_history (run_state (run scripts st)) = message_history st
   \/ message_history (run_state (run scripts st)) = ∅)
  /\ (reply_sent (run_trace (run scripts st)) = true ->
      message_history (run_state (run scripts st)) = ∅)
  /\ (message_history st = ∅ -> message_history (run_state (run scripts st)) = ∅).
Proof.
  assert (Hstay : forall scripts st,
             message_history (run_state (run scripts st)) = message_history st
             \/ message_history (run_state (run scripts st)) = ∅).
  { clear. intros scripts. induction scripts as [| env rest IH]; intros st; [left; reflexivity |].
    rewrite (main_cons md5_hexdigest json_loads).
    pose proof (step_history env st) as Hs.
    destruct (step env st) as [[[[] | e] st1] tr1]; cbn [run_state run_trace fst snd] in *.
    - destruct (IH st1) as [H | H]; [| right; exact H].
      rewrite H. destruct Hs as [(_ & Hs) | (_ & Hs)]; [left | right]; exact Hs.
    - destruct Hs as [(_ & Hs) | (_ & Hs)]; [left | right]; exact Hs.
    - destruct Hs as [(_ & Hs) | (_ & Hs)]; [left | right]; exact Hs. }
  assert (Hempty : forall scripts st,
             message_history st = ∅ -> message_history (run_state (run scripts st)) = ∅).
  { intros scripts' st' H. destruct (Hstay scripts' st') as [H' | H']; congruence. }
  split; [apply Hstay |]. split; [| apply Hempty].
  revert st. induction scripts as [| env rest IH]; intros st; [discriminate |].
  rewrite (main_cons md5_hexdigest json_loads).
  pose proof (step_history env st) as Hs.
  destruct (step env st) as [[[[] | e] st1] tr1]; cbn [run_state run_trace fst snd] in *.
  - rewrite reply_sent_app. destruct Hs as [(Hn & Hs) | (_ & Hs)].
    + rewrite Hn. cbn [orb]. apply IH.
    + intros _. apply Hempty. exact Hs.
  - rewrite app_nil_r. destruct Hs as [(Hn & _) | (_ & Hs)]; [congruence | intros _; exact Hs].
  - destruct Hs as [(Hn & _) | (_ & Hs)]; [congruence | intros _; exact Hs].
Qed.

(** An unseen fingerprint counts as replied to at time 0. *)
Lemma cooldown_active_unseen (history : gmap string Q) (img_hash : string) (now : Q) :
  history !! img_hash = None ->
  cooldown_active history img_hash now = true <-> (now < REPLY_COOLDOWN)%Q.
Proof.
  intros H. unfold cooldown_active. rewrite H. cbn [default]. rewrite Qltb_true.
  split; intros Hlt; lra.
Qed.

(** X3: for a fingerprint that is not in the history the gate uses the
    default time 0: the iteration is suppressed by the cooldown exactly
    when the clock reading itself is below the cooldown. *)
Theorem unseen_fingerprint_gate (env : script) (st : bot_state) (img : Image) :
  reached_gate env img ->
  message_history st !! fingerprint img = None ->
  cooldown_suppressed (run_trace (step env st)) = true <-> (clock_gate env < REPLY_COOLDOWN)%Q.
Proof.
  intros Hg Hnone.
  rewrite (gate_cooldown md5_hexdigest json_loads env st img Hg).
  apply cooldown_active_unseen. exact Hnone.
Qed.

Lemma step_empty_history_not_suppressed (env : script) (st : bot_state) :
  message_history st = ∅ ->
  (REPLY_COOLDOWN <= clock_gate env)%Q ->
  cooldown_suppressed (run_trace (step env st)) = false.
Proof.
  intros Hempty Hclock.
  pose proof (step_path md5_hexdigest json_loads env st) as Hp.
  remember (run_state (step env st)) as st' eqn:Est.
  remember (run_trace (step env st)) as tr eqn:Etr.
  destruct Hp as [tr Hno Ho | img' tr Hg' Hc Ho | img' tr Hg' Hc _ _ Ho
                 | img' tr f Hg' Hc _ Ho | img' tr Hg' Hc _ Ho _];
    apply observe_inv in Ho; destruct Ho as (-> & _); try reflexivity.
  exfalso. apply cooldown_active_unseen in Hc; [lra |].
  rewrite Hempty. apply lookup_empty.
Qed.

(** X2: in a run that starts with an empty history, as the program does,
    and whose clock readings at the gate are at least the cooldown, no
    iteration is ever suppressed by the cooldown. *)
Theorem cooldown_never_suppresses (scripts : list script) (st : bot_state) :
  message_history st = ∅ ->
  Forall (fun env => (REPLY_COOLDOWN <= clock_gate env)%Q) scripts ->
  cooldown_suppressed (run_trace (run scripts st)) = false.
Proof.
  revert st. induction scripts as [| env rest IH]; intros st Hempty Hall; [reflexivity |].
  inversion Hall as [| ? ? Henv Hrest]; subst.
  rewrite (main_cons md5_hexdigest json_loads).
  pose proof (step_empty_history_not_suppressed env st Hempty Henv) as Hs.
  destruct (step_history env st) as [(_ & Hh) | (_ & Hh)];
    destruct (step env st) as [[[[] | e] st1] tr1]; cbn [run_state run_trace fst snd] in *;
    rewrite ?cooldown_suppressed_app, ?Hs; cbn [orb];
    try reflexivity; try assumption;
    apply IH; try assumption; congruence.
Qed.

(** X4: an iteration asks the oracle at most once and sends at most one
    reply, and only after it has asked; over a run there are never more
    replies than oracle calls, nor more oracle calls than iterations. *)
Theorem replies_bounded_by_oracle_calls (scripts : list script) (st : bot_state) :
  (replies (run_trace (run scripts st)) <= oracle_calls (run_trace (run scripts st)))%nat
  /\ (oracle_calls (run_trace (run scripts st)) <= length scripts)%nat.
Proof.
  revert st. induction scripts as [| env rest IH]; intros st; [cbn; lia |].
  rewrite (main_cons md5_hexdigest json_loads).
  destruct (iteration_ordered md5_hexdigest json_loads env st)
    as (_ & _ & _ & Ho & Hr & Ht & He & Hs & _).
  apply Nat.leb_le in Ho, Hr.
  assert (Hle : (replies (run_trace (step env st)) <= oracle_calls (run_trace (step env st)))%nat).
  { destruct (reply_sent (run_trace (step env st))) eqn:Hsent.
    - cbn [implb] in Hs. rewrite Hs in He. cbn [implb] in He. rewrite He in Ht.
      cbn [implb] in Ht. apply andb_true_iff in Ht. destruct Ht as (_ & Ht).
      unfold oracle_invoked in Ht. rewrite existsb_count in Ht. apply Nat.leb_le in Ht.
      unfold oracle_calls. lia.
    - rewrite (no_sent_no_replies _ Hsent). lia. }
  destruct (step env st) as [[[[] | e] st1] tr1]; cbn [run_state run_trace fst snd length] in *.
  - destruct (IH st1) as (H1 & H2). rewrite replies_app, oracle_calls_app. lia.
  - rewrite app_nil_r. lia.
  - lia.
Qed.

Lemma roll_window_forward (now : Q) (st : bot_state) :
  (reset_time (reply_counter st) <= reset_time (reply_counter (roll_window now st)))%Q
  /\ (0 <= count (reply_counter st) -> 0 <= count (reply_counter (roll_window now st))).
Proof.
  unfold roll_window.
  destruct (Qltb RATE_WINDOW (now - reset_time (reply_counter st))) eqn:E.
  - apply Qltb_true in E. unfold RATE_WINDOW in E.
    cbn [set_reset_time set_count reply_counter reset_time count]. split; [lra | lia].
  - split; [lra | tauto].
Qed.

Lemma step_counter_forward (env : script) (st : bot_state) :
  (reset_time (reply_counter st) <= reset_time (reply_counter (run_state (step env st))))%Q
  /\ (0 <= count (reply_counter st) -> 0 <= count (reply_counter (run_state (step env st)))).
Proof.
  pose proof (step_path md5_hexdigest json_loads env st) as Hp.
  destruct (roll_window_forward (clock_rate env) st) as (Hr & Hc).
  remember (run_state (step env st)) as st' eqn:Est.
  remember (run_trace (step env st)) as tr eqn:Etr.
  destruct Hp as [tr Hno Ho | img' tr Hg' Hc' Ho | img' tr Hg' Hc' _ _ Ho
                 | img' tr f Hg' Hc' _ Ho | img' tr Hg' Hc' _ Ho _].
  1-3: split; [lra | tauto].
  - split; assumption.
  - cbn [bookkept set_history set_count reply_counter reset_time count].
    split; [exact Hr | intros H; specialize (Hc H); lia].
Qed.

(** X5: over a run the start of the rate window never moves backwards and
    a count that is not negative stays so. *)
Theorem rate_state_moves_forward (scripts : list script) (st : bot_state) :
  (reset_time (reply_counter st) <= reset_time (reply_counter (run_state (run scripts st))))%Q
  /\ (0 <= count (reply_counter st) ->
      0 <= count (reply_counter (run_state (run scripts st)))).
Proof.
  revert st. induction scripts as [| env rest IH]; intros st;
    [split; [apply Qle_refl | tauto] |].
  rewrite (main_cons md5_hexdigest json_loads).
  destruct (step_counter_forward env st) as (Hr & Hc).
  destruct (step env st) as [[[[] | e] st1] tr1]; cbn [run_state run_trace fst snd] in *;
    try (split; assumption).
  destruct (IH st1) as (Hr' & Hc'). split; [lra | tauto].
Qed.

(** X8: the loop prints its farewell exactly when it is left through
    [break]; a [KeyboardInterrupt] escapes [main] itself only from the
    sleep of the loop's own exception handler, after that handler has
    printed its error line, and then no farewell is printed. *)
Theorem loop_exit_paths (scripts : list script) (st : bot_state) :
  stopped (run_trace (run scripts st))
  = match run_result (run scripts st) with Ok Stopped => true | _ => false end
  /\ (forall e, run_result (run scripts st) = Raise e ->
        e = KeyboardInterrupt
        /\ loop_error (run_trace (run scripts st)) = true
        /\ exists env, In env scripts /\ handler_sleep_interrupted env = true).
Proof.
  revert st. induction scripts as [| env rest IH]; intros st.
  - cbn. split; [reflexivity | discriminate].
  - rewrite (main_cons md5_hexdigest json_loads).
    destruct (iteration_ordered md5_hexdigest json_loads env st) as (Hstop & Hraise & _).
    pose proof (step_caught md5_hexdigest json_loads env st) as Hcaught.
    destruct (step env st) as [[[[] | e] st1] tr1]; cbn [run_result run_state run_trace fst snd] in *.
    + destruct (IH st1) as (H1 & H2). rewrite stopped_app, Hstop, loop_error_app. cbn [orb].
      split; [exact H1 |]. intros e He. destruct (H2 e He) as (-> & Hl & env' & Hin & Hh).
      split; [reflexivity |]. split; [rewrite Hl; apply orb_true_r |].
      exists env'. split; [right; exact Hin | exact Hh].
    + rewrite app_nil_r. split; [exact Hstop | discriminate].
    + destruct e as [msg |]; [contradiction |].
      destruct (Hraise eq_refl) as (Hh & Hl).
      split; [exact Hstop |]. intros e [= <-]. split; [reflexivity |]. split; [exact Hl |].
      exists env. split; [left; reflexivity | exact Hh].
Qed.

End Invariants.

(** ** The reply decision *)

Ltac prune_step :=
  match goal with
  | H : ?l = _ |- context [?l] => rewrite H
  end;
  cbv beta iota zeta delta [negb andb].

Ltac drive json_loads := walk_open; repeat first [prune_step | walk_step json_loads].

Section Decision.

Variable md5_hexdigest : string -> string.
Variable json_loads : string -> loads_result.

Local Abbreviation fingerprint := (generate_image_hash md5_hexdigest).
Local Abbreviation step := (iteration md5_hexdigest json_loads).

Local Abbreviation answer := (answered md5_hexdigest json_loads).

Ltac open_answered H :=
  let img := fresh "img" in
  let text := fresh "text" in
  let payload := fresh "payload" in
  let Hp := fresh "Hpayload" in
  destruct H as (img & text & payload & (? & ? & ? & ? & ?) & ? & Hcap & ? & Hp & ?);
  rewrite strip_code_fence_eq in Hp; injection Hp as <-;
  apply Z.leb_gt in Hcap.

(** X6: when the oracle's object asks for a reply but has no
    [message_detected] key, the [KeyError] of line 287 is caught by the
    loop's own handler: its message is printed, nothing is typed or
    recorded, and the handler's sleep ends the iteration. *)
Theorem missing_message_key (env : script) (st : bot_state) (d : dict) :
  answer env st d ->
  truthy (dict_get d "should_reply" JNull) = true ->
  truthy (dict_get d "reply" JNull) = true ->
  dict_lookup d "message_detected" = None ->
  In (Print (LoopError "'message_detected'")) (run_trace (step env st))
  /\ prepared (run_trace (step env st)) = false
  /\ typed (run_trace (step env st)) = false
  /\ reply_sent (run_trace (step env st)) = false
  /\ sleeps (run_trace (step env st)) = 1%nat
  /\ run_state (step env st) = roll_window (clock_rate env) st
  /\ run_result (step env st)
     = if handler_sleep_interrupted env then Raise KeyboardInterrupt else Ok Continue.
Proof.
  intros Hans Hwant Hreply Hkey. open_answered Hans.
  set (P := fun x : result control * bot_state * list event =>
              In (Print (LoopError "'message_detected'")) (run_trace x)
              /\ prepared (run_trace x) = false
              /\ typed (run_trace x) = false
              /\ reply_sent (run_trace x) = false
              /\ sleeps (run_trace x) = 1%nat
              /\ run_state x = roll_window (clock_rate env) st
              /\ run_result x
                 = if handler_sleep_interrupted env then Raise KeyboardInterrupt
                   else Ok Continue).
  change (P (step env st)).
  drive json_loads.
  all: subst P; cbv beta; cbn [run_result run_state run_trace fst snd app];
    repeat match goal with H : handler_sleep_interrupted _ = _ |- _ => rewrite H end;
    repeat split; cbn [In]; auto 20.
Qed.


End Decision.

(** ** The helpers, step by step *)

Ltac write_is_message :=
  let v := fresh "v" in
  let Hin := fresh "Hin" in
  intros v Hin; cbn [In] in Hin;
  repeat match goal with
         | H : _ \/ _ |- _ => destruct H
         | H : False |- _ => destruct H
         end;
  congruence.

(** X9: [send_reply] returns [True] exactly when the window lookup, both
    clicks, the typing and the key press all succeed.  Nothing is typed
    unless the window was found and both clicks went through, Enter is
    not pressed unless the typing went through, and what is typed is the
    message it was given. *)
Theorem send_reply_steps (env : script) (message : json) (st : bot_state) :
  (run_result (send_reply env message st) = Ok true <->
   click_windows env = Ok true /\ click_chat env = Ok tt /\ click_input env = Ok tt
   /\ typing env = Ok tt /\ press_enter env = Ok tt)
  /\ (typed (run_trace (send_reply env message st)) = true <->
      click_windows env = Ok true /\ click_chat env = Ok tt /\ click_input env = Ok tt)
  /\ (entered (run_trace (send_reply env message st)) = true <->
      click_windows env = Ok true /\ click_chat env = Ok tt /\ click_input env = Ok tt
      /\ typing env = Ok tt)
  /\ (forall v : json, In (Call (Write v)) (run_trace (send_reply env message st)) ->
      v = message).
Proof.
  unfold send_reply, click_on_chat_area_and_input, try_except, perform, bind,
    print, emit, raise, ret.
  destruct (click_windows env) as [[|] | [m |]] eqn:E1; cbn;
    [destruct (click_chat env) as [[] | [m |]] eqn:E2; cbn;
       [destruct (click_input env) as [[] | [m |]] eqn:E3; cbn;
          [destruct (typing env) as [[] | [m |]] eqn:E4; cbn;
             [destruct (press_enter env) as [[] | [m |]] eqn:E5; cbn | |] | |] | |] | | |].
  all: split; [split; [try discriminate; intros _; repeat split
                      | intros (? & ? & ? & ? & ?); congruence] |].
  all: split; [split; [try discriminate; intros _; repeat split
                      | intros (? & ? & ?); congruence] |].
  all: split; [split; [try discriminate; intros _; repeat split
                      | intros (? & ? & ? & ?); congruence] |].
  all: write_is_message.
Qed.

(** X10: with [DEBUG_MODE] on, [get_chat_image] hands out a frame only if
    the debug copy could be saved as well: an exception while saving it
    is reported as a screenshot error and loses the frame. *)
Theorem capture_needs_debug_copy (env : script) (st : bot_state) :
  (forall img : Image,
     run_result (get_chat_image env st) = Ok (Some img) <->
     capture_windows env = Ok true /\ capture_shot env = Ok img /\ capture_debug env = Ok tt)
  /\ (forall (img : Image) (e : string),
        capture_windows env = Ok true ->
        capture_shot env = Ok img ->
        capture_debug env = Raise (Exception e) ->
        get_chat_image env st
        = (Ok None, st,
           [Call GetWindows; Call Screenshot; Call SaveDebug; Raised (Exception e);
            Print (ScreenshotError e)])).
Proof.
  unfold get_chat_image, try_except, perform, bind, print, emit, raise, ret.
  split.
  - intros img.
    destruct (capture_windows env) as [[|] | [m |]] eqn:E1; cbn;
      [destruct (capture_shot env) as [img' | [m |]] eqn:E2; cbn;
         [destruct (capture_debug env) as [[] | [m |]] eqn:E3; cbn | |] | | |].
    all: split; [try discriminate | intros (? & ? & ?); congruence].
    intros [= ->]. repeat split.
  - intros img e -> -> ->. reflexivity.
Qed.

(** ** More on the fence stripping *)

Lemma contains_append_l (sep pre s : string) :
  PyStr.contains sep s = true -> PyStr.contains sep (pre +:+ s) = true.
Proof.
  intros H. induction pre as [| c pre IH]; [exact H |].
  rewrite append_cons. cbn [PyStr.contains]. rewrite IH. apply orb_true_r.
Qed.

Lemma contains_no_tick (t body rest : string) :
  no_backtick body = true ->
  PyStr.contains (String "`" t) (body +:+ rest) = PyStr.contains (String "`" t) rest.
Proof.
  induction body as [| c body IH]; intros Hno; [reflexivity |].
  cbn [no_backtick] in Hno. apply andb_true_iff in Hno. destruct Hno as (Hc & Hno).
  apply negb_true_iff in Hc.
  rewrite append_cons. cbn [PyStr.contains].
  rewrite (prefix_tick_mismatch t c _ Hc), (IH Hno). reflexivity.
Qed.

Lemma no_tick_no_prefix (t s : string) :
  no_backtick s = true -> String.prefix (String "`" t) s = false.
Proof.
  destruct s as [| c s]; intros Hno; [reflexivity |].
  cbn [no_backtick] in Hno. apply andb_true_iff in Hno. destruct Hno as (Hc & _).
  apply negb_true_iff in Hc. apply prefix_tick_mismatch. exact Hc.
Qed.

Lemma no_tick_not_contained (t s : string) :
  no_backtick s = true -> PyStr.contains (String "`" t) s = false.
Proof.
  intros Hno. rewrite <- (append_empty_r s), (contains_no_tick t s "" Hno). reflexivity.
Qed.

Lemma split_go_alone (t s cur : string) :
  no_backtick s = true -> PyStr.split_go (String "`" t) 0 cur s = [cur +:+ s].
Proof.
  intros Hno. rewrite <- (append_empty_r s) at 1.
  rewrite (split_go_field t s cur "" Hno). reflexivity.
Qed.

(** A prefix without backticks is decided before a backtick is reached. *)
Lemma prefix_before_tick (p : string) :
  no_backtick p = true ->
  forall b r, String.prefix p (b +:+ String "`" r) = String.prefix p b.
Proof.
  induction p as [| a p IH]; intros Hno b r.
  - rewrite !prefix_nil. reflexivity.
  - cbn [no_backtick] in Hno. apply andb_true_iff in Hno. destruct Hno as (Ha & Hno).
    apply negb_true_iff in Ha.
    destruct b as [| c b].
    + rewrite append_nil. cbn [String.prefix].
      destruct (ascii_dec a "`") as [E | _]; [| reflexivity].
      subst a. rewrite Ascii.eqb_refl in Ha. discriminate.
    + rewrite append_cons. cbn [String.prefix].
      destruct (ascii_dec a c); [apply IH; exact Hno | reflexivity].
Qed.

(** After a field, at a closing fence followed by text without backticks:
    the scan for the [json] fence stops there only if the text goes on
    with [json]. *)
Lemma json_scan_at_close (cur post : string) :
  no_backtick post = true ->
  nth 0 (PyStr.split_go "```json" 0 cur ("```" +:+ post)) "" = cur
  \/ nth 0 (PyStr.split_go "```json" 0 cur ("```" +:+ post)) "" = cur +:+ "```" +:+ post.
Proof.
  intros Hno.
  assert (H0 : String.prefix "```json" (String "`" ("``" +:+ post)) = String.prefix "json" post)
    by reflexivity.
  assert (H1 : String.prefix "```json" (String "`" ("`" +:+ post)) = false)
    by (exact (no_tick_no_prefix "json" post Hno)).
  assert (H2 : String.prefix "```json" (String "`" post) = false)
    by (exact (no_tick_no_prefix "`json" post Hno)).
  change ("```" +:+ post) with (String "`" ("``" +:+ post)).
  destruct (String.prefix "json" post) eqn:E.
  - left. rewrite (split_go_match "```json" "`" ("``" +:+ post) cur); [reflexivity |].
    rewrite H0. reflexivity.
  - right. cbn [PyStr.split_go]. rewrite H0.
    change ("``" +:+ post) with (String "`" ("`" +:+ post)).
    cbn [PyStr.split_go]. rewrite H1.
    change ("`" +:+ post) with (String "`" post).
    cbn [PyStr.split_go]. rewrite H2.
    rewrite (split_go_alone "``json" post _ Hno). cbn [nth].
    rewrite !append_snoc. reflexivity.
Qed.

(** X12: the fence is found among other text: for a [json] fence with
    text before and after it, none of the three parts containing a
    backtick, the payload is the stripped text between the fences. *)
Theorem fence_among_text (pre body post : string) (st : bot_state) :
  no_backtick pre = true -> no_backtick body = true -> no_backtick post = true ->
  strip_code_fence (pre +:+ "```json" +:+ body +:+ "```" +:+ post) st
  = (Ok (PyStr.strip body), st, []).
Proof.
  intros Hpre Hbody Hpost. rewrite strip_code_fence_eq. f_equal. f_equal. f_equal.
  unfold fence_payload.
  rewrite (contains_append_l "```json" pre _
             (contains_prefix _ _ (prefix_append "```json" (body +:+ "```" +:+ post)))).
  unfold PyStr.split.
  rewrite (split_go_field "``json" pre "" _ Hpre), append_nil.
  change ("```json" +:+ body +:+ "```" +:+ post)
    with (String "`" ("``json" +:+ body +:+ "```" +:+ post)).
  rewrite (split_go_match "```json" "`" ("``json" +:+ body +:+ "```" +:+ post) pre
             (prefix_append "```json" (body +:+ "```" +:+ post))).
  change (PyStr.split_go "```json" (String.length "```json" - 1) ""
            ("``json" +:+ body +:+ "```" +:+ post))
    with (PyStr.split_go "```json" 0 "" (body +:+ "```" +:+ post)).
  cbn [nth].
  rewrite (split_go_field "``json" body "" _ Hbody), append_nil.
  destruct (json_scan_at_close body post Hpost) as [-> | ->].
  - rewrite (split_go_alone "``" body "" Hbody), append_nil. reflexivity.
  - rewrite (split_go_field "``" body "" _ Hbody), append_nil.
    change ("```" +:+ post) with (String "`" ("``" +:+ post)).
    rewrite (split_go_match "```" "`" ("``" +:+ post) body (prefix_append "```" post)).
    reflexivity.
Qed.

Lemma json_not_contained_at_close (post : string) :
  no_backtick post = true ->
  String.prefix "json" post = false ->
  PyStr.contains "```json" ("```" +:+ post) = false.
Proof.
  intros Hno Hjson.
  change ("```" +:+ post) with (String "`" (String "`" (String "`" post))).
  cbn [PyStr.contains].
  change (String.prefix "```json" (String "`" (String "`" (String "`" post))))
    with (String.prefix "json" post).
  rewrite Hjson.
  rewrite (no_tick_no_prefix "json" post Hno : String.prefix "```json" (String "`" (String "`" post)) = false).
  rewrite (no_tick_no_prefix "`json" post Hno : String.prefix "```json" (String "`" post) = false).
  rewrite (no_tick_not_contained "``json" post Hno). reflexivity.
Qed.

(** X13: unbalanced fences.  An opening [json] fence that is never closed
    is accepted: the payload is the stripped text after it.  A closing
    fence alone discards the text before it: the payload is the stripped
    text after the fence. *)
Theorem unbalanced_fences (body post : string) (st : bot_state) :
  no_backtick body = true -> no_backtick post = true ->
  strip_code_fence ("```json" +:+ body) st = (Ok (PyStr.strip body), st, [])
  /\ (String.prefix "json" post = false ->
      strip_code_fence (body +:+ "```" +:+ post) st = (Ok (PyStr.strip post), st, [])).
Proof.
  intros Hbody Hpost. rewrite !strip_code_fence_eq. split.
  - f_equal. f_equal. f_equal. unfold fence_payload.
    rewrite (contains_prefix _ _ (prefix_append "```json" body)).
    unfold PyStr.split.
    change ("```json" +:+ body) with (String "`" ("``json" +:+ body)).
    rewrite (split_go_match "```json" "`" ("``json" +:+ body) ""
               (prefix_append "```json" body)).
    change (PyStr.split_go "```json" (String.length "```json" - 1) "" ("``json" +:+ body))
      with (PyStr.split_go "```json" 0 "" body).
    cbn [nth].
    rewrite (split_go_alone "``json" body "" Hbody), append_nil. cbn [nth].
    rewrite (split_go_alone "``" body "" Hbody), append_nil. reflexivity.
  - intros Hjson. f_equal. f_equal. f_equal. unfold fence_payload.
    rewrite (contains_no_tick "``json" body _ Hbody),
      (json_not_contained_at_close post Hpost Hjson).
    rewrite (contains_append_l "```" body _ (contains_prefix _ _ (prefix_append "```" post))).
    unfold PyStr.split.
    rewrite (split_go_field "``" body "" _ Hbody), append_nil.
    change ("```" +:+ post) with (String "`" ("``" +:+ post)).
    rewrite (split_go_match "```" "`" ("``" +:+ post) body (prefix_append "```" post)).
    change (PyStr.split_go "```" (String.length "```" - 1) "" ("``" +:+ post))
      with (PyStr.split_go "```" 0 "" post).
    cbn [nth].
    rewrite (split_go_alone "``" post "" Hpost), append_nil. cbn [nth].
    rewrite (split_go_alone "``" post "" Hpost), append_nil. reflexivity.
Qed.

(** X14: a text without backticks is handed to the parser as it is, and a
    fence without the [json] tag is stripped like one with it. *)
Theorem plain_text_and_plain_fence (body : string) (st : bot_state) :
  no_backtick body = true ->
  strip_code_fence body st = (Ok body, st, [])
  /\ (String.prefix "json" body = false ->
      strip_code_fence ("```" +:+ body +:+ "```") st = (Ok (PyStr.strip body), st, [])).
Proof.
  intros Hbody. rewrite !strip_code_fence_eq. split.
  - f_equal. f_equal. f_equal. unfold fence_payload.
    rewrite (no_tick_not_contained "``json" body Hbody),
      (no_tick_not_contained "``" body Hbody). reflexivity.
  - intros Hjson. f_equal. f_equal. f_equal. unfold fence_payload.
    assert (Hnone : PyStr.contains "```json" ("```" +:+ body +:+ "```") = false).
    { change ("```" +:+ body +:+ "```")
        with (String "`" (String "`" (String "`" (body +:+ "```")))).
      cbn [PyStr.contains].
      change (String.prefix "```json" (String "`" (String "`" (String "`" (body +:+ "```")))))
        with (String.prefix "json" (body +:+ String "`" "``")).
      rewrite (prefix_before_tick "json" eq_refl body "``"), Hjson.
      rewrite (contains_no_tick "``json" body "```" Hbody).
      destruct body as [| c body]; [reflexivity |].
      cbn [no_backtick] in Hbody. apply andb_true_iff in Hbody. destruct Hbody as (Hc & _).
      apply negb_true_iff in Hc. rewrite !append_cons.
      rewrite (prefix_tick_mismatch "json" c _ Hc : String.prefix "```json" (String "`" (String "`" (String c _))) = false).
      rewrite (prefix_tick_mismatch "`json" c _ Hc : String.prefix "```json" (String "`" (String c _)) = false).
      reflexivity. }
    rewrite Hnone.
    rewrite (contains_prefix _ _ (prefix_append "```" (body +:+ "```"))).
    unfold PyStr.split.
    change ("```" +:+ body +:+ "```") with (String "`" ("``" +:+ body +:+ "```")).
    rewrite (split_go_match "```" "`" ("``" +:+ body +:+ "```") ""
               (prefix_append "```" (body +:+ "```"))).
    change (PyStr.split_go "```" (String.length "```" - 1) "" ("``" +:+ body +:+ "```"))
      with (PyStr.split_go "```" 0 "" (body +:+ "```")).
    cbn [nth].
    rewrite (split_go_field "``" body "" "```" Hbody), append_nil.
    change (PyStr.split_go "```" 0 body "```") with [body; ""].
    cbn [nth].
    rewrite (split_go_alone "``" body "" Hbody), append_nil. reflexivity.
Qed.

(** ** The analysis, and an iteration without a frame *)

Section Analysis.

Variable md5_hexdigest : string -> string.
Variable json_loads : string -> loads_result.

Local Abbreviation step := (iteration md5_hexdigest json_loads).
Local Abbreviation analyze := (analyze_message_and_generate_reply json_loads).

(** X11: [analyze_message_and_generate_reply] leaves the bot's state
    alone and calls the oracle first; it raises only when the oracle call
    is interrupted; what it returns is the no-reply dictionary or the
    object parsed from the response.  A transport error of the oracle
    and a response that is JSON but not an object both end in the outer
    handler: one "Gemini error" line, no parsing report, no reply. *)
Theorem analysis_outcomes (env : script) (img : Image) (st : bot_state) :
  run_state (analyze env img st) = st
  /\ hd_error (run_trace (analyze env img st)) = Some (Call (GenerateContent img))
  /\ (forall e : exn,
        run_result (analyze env img st) = Raise e ->
        e = KeyboardInterrupt /\ generate_content env = Raise KeyboardInterrupt)
  /\ (forall d : dict,
        run_result (analyze env img st) = Ok d ->
        d = no_reply
        \/ exists text : string,
             generate_content env = Ok text
             /\ json_loads (fence_payload (PyStr.strip text)) = Parsed (JDict d))
  /\ (forall e : string,
        generate_content env = Raise (Exception e) ->
        analyze env img st
        = (Ok no_reply, st,
           [Call (GenerateContent img); Raised (Exception e); Print (GeminiError e)]))
  /\ (forall (text : string) (v : json),
        generate_content env = Ok text ->
        json_loads (fence_payload (PyStr.strip text)) = Parsed v ->
        (forall d, v <> JDict d) ->
        analyze env img st
        = (Ok no_reply, st,
           [Call (GenerateContent img);
            Raised (Exception ("'" +:+ type_name v +:+ "' object has no attribute 'get'"));
            Print (GeminiError ("'" +:+ type_name v +:+ "' object has no attribute 'get'"))])).
Proof.
  rewrite analyze_eq.
  split; [| split; [| split; [| split; [| split]]]].
  - destruct (generate_content env) as [text | [e |]]; try reflexivity.
    cbv zeta. destruct (json_loads (fence_payload (PyStr.strip text))) as [[] | e]; reflexivity.
  - destruct (generate_content env) as [text | [e |]]; try reflexivity.
    cbv zeta. destruct (json_loads (fence_payload (PyStr.strip text))) as [[] | e]; reflexivity.
  - intros e. destruct (generate_content env) as [text | [e' |]]; cbn [run_result fst].
    + cbv zeta. destruct (json_loads (fence_payload (PyStr.strip text))) as [[] | e'];
        cbn [run_result fst]; discriminate.
    + discriminate.
    + intros [= <-]. split; reflexivity.
  - intros d. destruct (generate_content env) as [text | [e' |]]; cbn [run_result fst].
    + cbv zeta. destruct (json_loads (fence_payload (PyStr.strip text))) as [[] | e'] eqn:E;
        cbn [run_result fst]; intros [= <-]; try (left; reflexivity).
      right. exists text. split; [reflexivity | exact E].
    + intros [= <-]. left. reflexivity.
    + discriminate.
  - intros e ->. reflexivity.
  - intros text v -> Hv Hnot. cbv zeta. rewrite Hv.
    destruct v; try reflexivity. exfalso. exact (Hnot _ eq_refl).
Qed.

(** X22: an iteration that gets no frame (the window is not found or not
    focused, or the capture or its debug copy fails) asks nothing, types
    nothing, reports neither gate and leaves the state as it was. *)
Theorem no_frame_no_query (env : script) (st : bot_state) :
  (forall img, ~ reached_gate env img) ->
  run_state (step env st) = st
  /\ observe (run_trace (step env st)) = (false, false, false, false, false)
  /\ typed (run_trace (step env st)) = false
  /\ declined (run_trace (step env st)) = false.
Proof.
  intros Hno.
  pose proof (step_path md5_hexdigest json_loads env st) as Hp.
  pose proof (iteration_ordered md5_hexdigest json_loads env st) as Ho.
  unfold holds, iteration_order in Ho.
  destruct Ho as (_ & _ & _ & _ & _ & Ht & _ & _ & _ & Hd & _).
  remember (run_state (step env st)) as st' eqn:Est.
  remember (run_trace (step env st)) as tr eqn:Etr.
  destruct Hp as [tr _ Ho | img' tr Hg' _ _ | img' tr Hg' _ _ _ _
                 | img' tr f Hg' _ _ _ | img' tr Hg' _ _ _ _];
    try (exfalso; exact (Hno img' Hg')).
  split; [reflexivity |]. split; [exact Ho |].
  apply observe_inv in Ho. destruct Ho as (_ & _ & Hq & _ & _).
  rewrite Hq, andb_false_r in Ht, Hd.
  split; [destruct (typed tr) | destruct (declined tr)]; try reflexivity; discriminate.
Qed.

(** X23: what one iteration does depends on what it did before: Enter
    is pressed only after the reply was typed, the reply is typed only
    after the oracle was asked and the detected message announced, and a
    reply counts as sent only after Enter; an iteration that reports
    nothing to reply to has asked the oracle and announced nothing; after
    an error line of the loop's own handler nothing was typed and the
    state is the one the rate check left; there is at most one sleep. *)
Theorem effects_depend (env : script) (st : bot_state) :
  let tr := run_trace (step env st) in
  (reply_sent tr = true -> entered tr = true)
  /\ (entered tr = true -> typed tr = true)
  /\ (typed tr = true -> prepared tr = true /\ oracle_invoked tr = true)
  /\ (declined tr = true -> prepared tr = false /\ oracle_invoked tr = true)
  /\ (loop_error tr = true ->
      typed tr = false /\ run_state (step env st) = roll_window (clock_rate env) st)
  /\ (sleeps tr <= 1)%nat.
Proof.
  cbv zeta.
  destruct (iteration_ordered md5_hexdigest json_loads env st)
    as (_ & _ & Hs & _ & _ & Ht & He & Hr & Hl & Hd & Hst).
  apply Nat.leb_le in Hs.
  destruct (reply_sent (run_trace (step env st))), (entered (run_trace (step env st))),
    (typed (run_trace (step env st))), (prepared (run_trace (step env st))),
    (oracle_invoked (run_trace (step env st))), (declined (run_trace (step env st))),
    (loop_error (run_trace (step env st)));
    cbn [implb andb negb] in *; try discriminate;
    repeat split; try discriminate; try reflexivity; try exact Hs; auto.
Qed.

End Analysis.

(** ** The further properties at concrete inputs *)

(** Two iterations 400 seconds apart, from the state the program starts
    in: neither is held back by the cooldown. *)
Lemma cooldown_never_suppresses_witness :
  cooldown_suppressed
    (run_trace (main demo_md5 demo_loads [demo_script 1000; demo_script 1400]
                  (initial_state 900))) = false.
Proof.
  apply (cooldown_never_suppresses demo_md5 demo_loads [demo_script 1000; demo_script 1400]
           (initial_state 900)).
  - reflexivity.
  - repeat constructor; vm_compute; discriminate.
Defined.

(** A first frame seen while the clock reads 100: held back by the
    cooldown although no reply was ever sent. *)
Lemma unseen_fingerprint_gate_witness :
  cooldown_suppressed
    (run_trace (iteration demo_md5 demo_loads (demo_script 100) (initial_state 0))) = true.
Proof.
  apply (unseen_fingerprint_gate demo_md5 demo_loads (demo_script 100) (initial_state 0)
           demo_frame).
  - apply demo_reaches_gate.
  - reflexivity.
  - reflexivity.
Defined.

Lemma keyless_answered :
  answered demo_md5 keyless_loads (scripted 1000 (Ok keyless_json) (Ok true) (Ok tt))
    (initial_state 900) keyless_data.
Proof.
  exists demo_frame, keyless_json, keyless_json.
  split; [apply demo_reaches_gate |]. repeat split; vm_compute; reflexivity.
Qed.

(** The oracle asks for the reply [hello] and names no message. *)
Lemma missing_message_key_witness :
  typed (run_trace (iteration demo_md5 keyless_loads
                      (scripted 1000 (Ok keyless_json) (Ok true) (Ok tt))
                      (initial_state 900))) = false
  /\ run_result (iteration demo_md5 keyless_loads
                   (scripted 1000 (Ok keyless_json) (Ok true) (Ok tt))
                   (initial_state 900)) = Ok Continue.
Proof.
  destruct (missing_message_key demo_md5 keyless_loads
              (scripted 1000 (Ok keyless_json) (Ok true) (Ok tt)) (initial_state 900)
              keyless_data keyless_answered eq_refl eq_refl eq_refl)
    as (_ & _ & Ht & _ & _ & _ & Hr).
  split; [exact Ht | exact Hr].
Defined.



(** A fenced object between two sentences. *)
Lemma fence_among_text_witness :
  strip_code_fence ("Here it is: " +:+ "```json" +:+ " {} " +:+ "```" +:+ " Bye.")
    (initial_state 900)
  = (Ok "{}", initial_state 900, []).
Proof.
  exact (fence_among_text "Here it is: " " {} " " Bye." (initial_state 900)
           eq_refl eq_refl eq_refl).
Defined.

Lemma unbalanced_fences_witness :
  strip_code_fence ("```json" +:+ " {} ") (initial_state 900) = (Ok "{}", initial_state 900, [])
  /\ strip_code_fence (" {} " +:+ "```" +:+ " Bye.") (initial_state 900)
     = (Ok "Bye.", initial_state 900, []).
Proof.
  destruct (unbalanced_fences " {} " " Bye." (initial_state 900) eq_refl eq_refl) as (H1 & H2).
  split; [exact H1 | exact (H2 eq_refl)].
Defined.

Lemma plain_text_and_plain_fence_witness :
  strip_code_fence " {} " (initial_state 900) = (Ok " {} ", initial_state 900, [])
  /\ strip_code_fence ("```" +:+ " {} " +:+ "```") (initial_state 900)
     = (Ok "{}", initial_state 900, []).
Proof.
  destruct (plain_text_and_plain_fence " {} " (initial_state 900) eq_refl) as (H1 & H2).
  split; [exact H1 | exact (H2 eq_refl)].
Defined.

(** The debug copy cannot be written: the iteration stops before the
    gates. *)
Lemma no_frame_no_query_witness :
  run_state (iteration demo_md5 demo_loads (no_debug_copy 1000) (initial_state 900))
  = initial_state 900
  /\ oracle_invoked
       (run_trace (iteration demo_md5 demo_loads (no_debug_copy 1000) (initial_state 900)))
     = false.
Proof.
  destruct (no_frame_no_query demo_md5 demo_loads (no_debug_copy 1000) (initial_state 900))
    as (Hst & Ho & _).
  - intros img (_ & _ & _ & _ & H). discriminate H.
  - split; [exact Hst |]. apply observe_inv in Ho. tauto.
Defined.

(** The same script, at the capture. *)
Lemma capture_needs_debug_copy_witness :
  run_result (get_chat_image (no_debug_copy 1000) (initial_state 900)) = Ok None.
Proof.
  rewrite (proj2 (capture_needs_debug_copy (no_debug_copy 1000) (initial_state 900))
             demo_frame "[Errno 13] Permission denied: 'debug_capture.png'"
             eq_refl eq_refl eq_refl).
  reflexivity.
Defined.

(** ** check_setup.py: what the checker reports *)

Module CheckSetupFacts.

Import CheckSetup.
Local Open Scope setup_scope.

Lemma str_take_drop (n : nat) (s : string) : str_take n s +:+ str_drop n s = s.
Proof.
  revert s. induction n as [| n IH]; intros [| c s]; try reflexivity.
  cbn [str_take str_drop]. rewrite append_cons, IH. reflexivity.
Qed.

Lemma str_take_all (n : nat) (s : string) : (String.length s <= n)%nat -> str_take n s = s.
Proof.
  revert s. induction n as [| n IH]; intros [| c s] Hlen; try reflexivity.
  - cbn in Hlen. lia.
  - cbn [str_take]. rewrite IH; [reflexivity | cbn in Hlen; lia].
Qed.

Lemma str_drop_length (n : nat) (s : string) :
  String.length (str_drop n s) = (String.length s - n)%nat.
Proof.
  revert s. induction n as [| n IH]; intros [| c s]; try reflexivity.
  cbn [str_drop String.length]. rewrite IH. lia.
Qed.

Lemma str_take_length (n : nat) (s : string) :
  String.length (str_take n s) = Nat.min n (String.length s).
Proof.
  revert s. induction n as [| n IH]; intros [| c s]; try reflexivity.
  cbn [str_take String.length]. rewrite IH. lia.
Qed.

Lemma str_drop_drop (a b : nat) (s : string) :
  str_drop a (str_drop b s) = str_drop (b + a) s.
Proof.
  revert s. induction b as [| b IH]; intros s; [reflexivity |].
  destruct s as [| c s].
  - cbn [str_drop Nat.add]. destruct a; reflexivity.
  - cbn [str_drop Nat.add]. apply IH.
Qed.

(** X17: what the masked key line shows.  A key of at most 10 characters
    is printed in full, a key of at most 14 has every character printed,
    and only for a longer key are characters hidden, all but the first 10
    and the last 4. *)
Theorem key_mask_reveals (key : string) :
  ((String.length key <= 10)%nat -> slice_head 10 key = key)
  /\ ((String.length key <= 14)%nat ->
      exists overlap : string,
        slice_tail 4 key = overlap +:+ str_drop 10 key
        /\ key = slice_head 10 key +:+ str_drop 10 key)
  /\ ((14 <= String.length key)%nat ->
      exists hidden : string,
        key = slice_head 10 key +:+ hidden +:+ slice_tail 4 key
        /\ String.length hidden = (String.length key - 14)%nat).
Proof.
  unfold slice_head, slice_tail. split; [apply str_take_all |]. split.
  - intros Hlen.
    exists (str_take (10 - (String.length key - 4)) (str_drop (String.length key - 4) key)).
    split; [| symmetry; apply str_take_drop].
    rewrite <- (str_take_drop (10 - (String.length key - 4))
                 (str_drop (String.length key - 4) key)) at 1.
    rewrite str_drop_drop. do 2 f_equal. lia.
  - intros Hlen. exists (str_take (String.length key - 14) (str_drop 10 key)). split.
    + rewrite <- (str_take_drop 10 key) at 1. f_equal.
      rewrite <- (str_take_drop (String.length key - 14) (str_drop 10 key)) at 1. f_equal.
      rewrite str_drop_drop. f_equal. lia.
    + rewrite str_take_length, str_drop_length. lia.
Qed.

Lemma scan_packages_lines (m : machine) (table : list (string * string)) :
  forall missing, forallb plain_line (snd (scan_packages m table missing)) = true.
Proof.
  induction table as [| [module package] rest IH]; intros missing; [reflexivity |].
  cbn [scan_packages]. destruct (import_module m module); try reflexivity.
  - unfold wbind, say. specialize (IH missing).
    destruct (scan_packages m rest missing) as [r tr]. exact IH.
  - unfold wbind, say. specialize (IH (missing ++ [package])).
    destruct (scan_packages m rest (missing ++ [package])) as [r tr]. exact IH.
Qed.

Lemma scan_packages_importable (m : machine) (table : list (string * string)) :
  importable m table ->
  forall missing, fst (scan_packages m table missing) = Ok (missing ++ missing_in m table).
Proof.
  induction table as [| [module package] rest IH]; intros Himp missing.
  - cbn. rewrite app_nil_r. reflexivity.
  - assert (Hrest : importable m rest).
    { intros module' package' e Hin. apply (Himp module' package' e). right. exact Hin. }
    cbn [scan_packages missing_in].
    destruct (import_module m module) as [| msg | e] eqn:E.
    + unfold wbind, say. specialize (IH Hrest missing).
      destruct (scan_packages m rest missing) as [r tr]. cbn in *. subst r. reflexivity.
    + unfold wbind, say. specialize (IH Hrest (missing ++ [package])).
      destruct (scan_packages m rest (missing ++ [package])) as [r tr]. cbn in *. subst r.
      rewrite <- app_assoc. reflexivity.
    + exfalso. apply (Himp module package e); [left; reflexivity | exact E].
Qed.

Lemma missing_in_nil (m : machine) (table : list (string * string)) :
  missing_in m table = [] <->
  forall module package msg, In (module, package) table -> import_module m module <> NotInstalled msg.
Proof.
  induction table as [| [module package] rest IH]; cbn [missing_in].
  - split; [intros _ ? ? ? [] | reflexivity].
  - destruct (import_module m module) as [| msg | e] eqn:E.
    + rewrite IH. split.
      * intros H module' package' msg' [[= <- <-] | Hin]; [congruence | eauto].
      * intros H module' package' msg' Hin. apply (H module' package'). right. exact Hin.
    + split; [discriminate |]. intros H. exfalso.
      apply (H module package msg); [left; reflexivity | exact E].
    + rewrite IH. split.
      * intros H module' package' msg' [[= <- <-] | Hin]; [congruence | eauto].
      * intros H module' package' msg' Hin. apply (H module' package'). right. exact Hin.
Qed.

Lemma requirements_outcome (m : machine) :
  importable m required ->
  fst (check_requirements m)
  = Ok (match missing_in m required with [] => true | _ => false end)
  /\ (missing_in m required <> [] ->
      In (PipInstall (missing_in m required)) (snd (check_requirements m))).
Proof.
  intros Himp. pose proof (scan_packages_importable m required Himp []) as Hscan.
  unfold check_requirements, header, say. revert Hscan. generalize required. intros table.
  unfold wbind. destruct (scan_packages m table []) as [r tr].
  intros Hscan. change (r = Ok (missing_in m table)) in Hscan. subst r.
  destruct (missing_in m table) as [| p ps]; split; try reflexivity; try contradiction.
  intros _. cbn [snd]. apply in_or_app. right. apply in_or_app. right.
  right. left. reflexivity.
Qed.

(** X15: when no import raises anything but [ImportError],
    [check_requirements] returns [True] exactly when none of the five
    imports fails, and otherwise prints one [pip install] line that names
    the packages whose import failed, in the order of the table.  An
    import that raises something else is not caught: the exception of the
    first module of the table leaves the function at once. *)
Theorem requirements_report (m : machine) :
  (importable m required ->
   fst (check_requirements m)
   = Ok (match missing_in m required with [] => true | _ => false end)
   /\ (missing_in m required <> [] ->
       In (PipInstall (missing_in m required)) (snd (check_requirements m)))
   /\ (missing_in m required = [] <->
       forall module package msg,
         In (module, package) required -> import_module m module <> NotInstalled msg))
  /\ (forall e : exn,
        import_module m "pyautogui" = ImportFailed e ->
        check_requirements m = (Raise e, [Rule; Title Dependencies; Rule])).
Proof.
  split.
  - intros Himp. destruct (requirements_outcome m Himp) as (Hres & Hpip).
    split; [exact Hres |]. split; [exact Hpip | apply missing_in_nil].
  - intros e He. unfold check_requirements, required. cbn [scan_packages]. rewrite He.
    reflexivity.
Qed.

(** X16: [check_env] returns [True] exactly when the [.env] file exists,
    [dotenv] imports and loads, and the key is set to something other
    than the empty string and the placeholder of the template.  It then
    prints the key masked, and the bot's own check at import time accepts
    the key.  The placeholder is refused here although the bot would
    accept it. *)
Theorem env_check_accepts (m : machine) :
  (fst (check_env m) = Ok true <->
   env_file_exists m = true /\ import_module m "dotenv" = Imported /\ load_env m = Ok tt
   /\ exists key, api_key m = Some key /\ key <> EmptyString /\ key <> "your_api_key_here")
  /\ (fst (check_env m) = Ok true ->
      require_api_key (api_key m) = Ok tt
      /\ exists key, api_key m = Some key
           /\ In (KeyShown (slice_head 10 key) (slice_tail 4 key)) (snd (check_env m)))
  /\ (api_key m = Some "your_api_key_here" ->
      fst (check_env m) <> Ok true /\ require_api_key (api_key m) = Ok tt).
Proof.
  assert (Hiff : fst (check_env m) = Ok true ->
          env_file_exists m = true /\ import_module m "dotenv" = Imported /\ load_env m = Ok tt
          /\ exists key, api_key m = Some key /\ key <> EmptyString
               /\ key <> "your_api_key_here"
               /\ In (KeyShown (slice_head 10 key) (slice_tail 4 key)) (snd (check_env m))).
  { unfold check_env, import_or_raise, outcome, header, say, wbind, wret, wraise.
    destruct (env_file_exists m); cbn; [| discriminate].
    destruct (import_module m "dotenv"); cbn; try discriminate.
    destruct (load_env m) as [[] | e]; cbn; [| discriminate].
    destruct (api_key m) as [key |]; cbn; [| discriminate].
    destruct (String.eqb key "") eqn:E1; cbn; [discriminate |].
    destruct (String.eqb key "your_api_key_here") eqn:E2; cbn; [discriminate |].
    intros _. repeat split. exists key. apply String.eqb_neq in E1, E2.
    repeat split; try assumption. auto 10. }
  split; [split |]; [| | split].
  - intros H. destruct (Hiff H) as (? & ? & ? & key & ? & ? & ? & _). eauto 10.
  - intros (He & Hd & Hl & key & Hk & Hne & Hnp).
    unfold check_env, import_or_raise, outcome, header, say, wbind, wret, wraise.
    rewrite He, Hd, Hl, Hk. cbn.
    apply String.eqb_neq in Hne, Hnp. rewrite Hne, Hnp. reflexivity.
  - intros H. destruct (Hiff H) as (_ & _ & _ & key & Hk & Hne & _ & Hin).
    split; [| eauto]. rewrite Hk. unfold require_api_key.
    apply String.eqb_neq in Hne. rewrite Hne. reflexivity.
  - intros Hk. split; [| rewrite Hk; reflexivity].
    intros H. destruct (Hiff H) as (_ & _ & _ & key & Hk' & _ & Hnp & _). congruence.
Qed.

(** X18: [check_config] never reports a failure: whether [config.json]
    is absent, unreadable, not JSON or not a JSON object, it returns
    [True]; only an interrupt while the file is read cuts it short. *)
Theorem config_check_never_fails (m : machine) :
  fst (check_config m) = Ok true
  \/ (config_exists m = true /\ config_json m = Raise KeyboardInterrupt
      /\ fst (check_config m) = Raise KeyboardInterrupt).
Proof.
  unfold check_config, outcome, header, say, wbind, wret, wraise, wtry.
  destruct (config_exists m); cbn; [| left; reflexivity].
  destruct (config_json m) as [[] | [e |]]; cbn; try (left; reflexivity).
  right. repeat split.
Qed.

Lemma check_requirements_lines (m : machine) :
  forallb plain_line (snd (check_requirements m)) = true.
Proof.
  unfold check_requirements. unfold wbind at 1. cbn [header say wbind app].
  pose proof (scan_packages_lines m required []) as Hs.
  unfold wbind. destruct (scan_packages m required []) as [[missing | e] tr]; cbn in *.
  - destruct missing; cbn; rewrite forallb_app, Hs; reflexivity.
  - exact Hs.
Qed.

Lemma check_env_lines (m : machine) : forallb plain_line (snd (check_env m)) = true.
Proof.
  unfold check_env, import_or_raise, outcome, header, say, wbind, wret, wraise.
  destruct (env_file_exists m); cbn; [| reflexivity].
  destruct (import_module m "dotenv"); cbn; try reflexivity.
  destruct (load_env m) as [[] | e]; cbn; [| reflexivity].
  destruct (api_key m) as [key |]; cbn; [| reflexivity].
  destruct (String.eqb key ""); cbn; [reflexivity |].
  destruct (String.eqb key "your_api_key_here"); reflexivity.
Qed.

Lemma check_whatsapp_lines (m : machine) :
  forallb plain_line (snd (check_whatsapp m)) = true /\ caught (fst (check_whatsapp m)).
Proof.
  unfold check_whatsapp, import_or_raise, outcome, header, say, wbind, wret, wraise, wtry.
  destruct (import_module m "pygetwindow") as [| msg | [e |]]; cbn; try (split; [reflexivity | exact I]).
  destruct (windows m) as [[| win wins] | [e |]]; cbn; split; try reflexivity; exact I.
Qed.

Lemma check_config_lines (m : machine) :
  forallb plain_line (snd (check_config m)) = true /\ caught (fst (check_config m)).
Proof.
  unfold check_config, outcome, header, say, wbind, wret, wraise, wtry.
  destruct (config_exists m); cbn; [| split; [reflexivity | exact I]].
  destruct (config_json m) as [[] | [e |]]; cbn; split; try reflexivity; exact I.
Qed.

Lemma test_gemini_api_lines (m : machine) :
  existsb is_verdict (snd (test_gemini_api m)) = false /\ caught (fst (test_gemini_api m)).
Proof.
  unfold test_gemini_api, import_or_raise, outcome, header, say, wbind, wret, wraise, wtry.
  destruct (import_module m "dotenv") as [| msg | [e |]]; cbn; try (split; [reflexivity | exact I]).
  destruct (import_module m "google.generativeai") as [| msg | [e |]]; cbn;
    try (split; [reflexivity | exact I]).
  destruct (load_env m) as [[] | [e |]]; cbn; try (split; [reflexivity | exact I]).
  destruct (gemini_model m) as [[] | [e |]]; cbn; try (split; [reflexivity | exact I]).
  destruct (gemini_reply m) as [text | [e |]]; cbn; split; try reflexivity; exact I.
Qed.

Lemma test_gemini_api_header (m : machine) : In (Title GeminiAPI) (snd (test_gemini_api m)).
Proof.
  unfold test_gemini_api, import_or_raise, outcome, header, say, wbind, wret, wraise, wtry.
  destruct (import_module m "dotenv") as [| msg | [e |]]; cbn; auto.
  all: destruct (import_module m "google.generativeai") as [| msg' | [e' |]]; cbn; auto.
  all: destruct (load_env m) as [[] | [e'' |]]; cbn; auto.
  all: destruct (gemini_model m) as [[] | [e3 |]]; cbn; auto.
  all: destruct (gemini_reply m) as [text | [e4 |]]; cbn; auto.
Qed.

Lemma plain_no_verdict (tr : list sline) :
  forallb plain_line tr = true -> existsb is_verdict tr = false /\ existsb is_api tr = false.
Proof.
  induction tr as [| l tr IH]; cbn [forallb existsb]; [split; reflexivity |].
  intros [Hl Htr]%andb_true_iff. destruct (IH Htr) as (-> & ->).
  unfold plain_line in Hl. apply negb_true_iff, orb_false_iff in Hl. destruct Hl as (-> & ->).
  split; reflexivity.
Qed.

Lemma not_in_plain (tr : list sline) (l : sline) :
  forallb plain_line tr = true -> plain_line l = false -> ~ In l tr.
Proof.
  intros Hall Hl Hin. rewrite forallb_forall in Hall. specialize (Hall l Hin). congruence.
Qed.

Lemma not_in_api (tr : list sline) (l : sline) :
  existsb is_verdict tr = false -> is_verdict l = true -> ~ In l tr.
Proof.
  intros Hnone Hl Hin.
  assert (existsb is_verdict tr = true) by (apply existsb_exists; eauto). congruence.
Qed.

Ltac open_checks m :=
  pose proof (check_requirements_lines m) as Hreq;
  pose proof (check_env_lines m) as Henv;
  destruct (check_whatsapp_lines m) as [Hwa Hwa'];
  destruct (check_config_lines m) as [Hcfg Hcfg'];
  destruct (test_gemini_api_lines m) as [Hapi Hapi'];
  pose proof (test_gemini_api_header m) as Hhead;
  unfold main, header, say, wbind, wret, all_passed;
  destruct (check_requirements m) as [[[|] | e1] t1];
  destruct (check_env m) as [[[|] | e2] t2];
  destruct (check_whatsapp m) as [[[|] | [e3 |]] t3];
  destruct (check_config m) as [[[|] | [e4 |]] t4];
  destruct (test_gemini_api m) as [[[|] | [e5 |]] t5];
  cbn [fst snd caught] in *; try contradiction;
  cbn [forallb report snd fst app andb wbind say wret].

Ltac absent :=
  match goal with
  | H : forallb plain_line ?t = true, Hin : In ?l ?t |- _ =>
      exfalso; exact (not_in_plain t l H eq_refl Hin)
  | H : existsb is_verdict ?t = false, Hin : In ?l ?t |- _ =>
      exfalso; exact (not_in_api t l H eq_refl Hin)
  end.

Ltac sift :=
  repeat match goal with
         | H : In _ (_ ++ _) |- _ => apply in_app_or in H; destruct H as [H | H]
         | H : In _ (_ :: _) |- _ => destruct H as [H | H]; [discriminate H |]
         | H : In _ [] |- _ => destruct H
         | H : _ /\ _ |- _ => destruct H
         end;
  try discriminate; try absent.

Ltac present :=
  first [ assumption
        | left; reflexivity
        | right; present
        | apply in_or_app; left; present
        | apply in_or_app; right; present ].

(** X19: [main] runs the Gemini test only after the four checks
    returned [True]; it prints "ALL CHECKS PASSED" exactly when the four
    checks and the Gemini test returned [True], and "SETUP INCOMPLETE"
    exactly when it returns without having printed the former. *)
Theorem api_test_gated (m : machine) :
  let tr := snd (main m) in
  let four := fst (check_requirements m) = Ok true /\ fst (check_env m) = Ok true
              /\ fst (check_whatsapp m) = Ok true /\ fst (check_config m) = Ok true in
  (In (Title GeminiAPI) tr <-> four)
  /\ (In AllPassed tr <-> four /\ fst (test_gemini_api m) = Ok true)
  /\ (In Incomplete tr <-> fst (main m) = Ok tt /\ ~ In AllPassed tr).
Proof.
  cbv zeta. split; [| split].
  - split.
    + intros Hin. revert Hin. open_checks m; intros Hin; sift; repeat split.
    + intros Hfour. revert Hfour. open_checks m; intros Hfour; sift; present.
  - split.
    + intros Hin. revert Hin. open_checks m; intros Hin; sift; repeat split.
    + intros Hfive. revert Hfive. open_checks m; intros Hfive; sift; present.
  - split.
    + intros Hin. revert Hin. open_checks m; intros Hin; sift; (split; [reflexivity |]);
        intros Hin'; sift.
    + intros Hdone. revert Hdone. open_checks m; intros [Hok Hnot]; try discriminate Hok;
        try present; exfalso; apply Hnot; present.
Qed.

Lemma in_missing (m : machine) (table : list (string * string)) (module package msg : string) :
  In (module, package) table -> import_module m module = NotInstalled msg ->
  In package (missing_in m table).
Proof.
  induction table as [| [module' package'] rest IH]; cbn [In missing_in]; [tauto |].
  intros [[= -> ->] | Hin] Hm.
  - rewrite Hm. left. reflexivity.
  - destruct (import_module m module'); [| right |]; auto.
Qed.

(** X20: the script ends with status 1 only when [check_requirements] or
    [check_env] lets an exception escape, the three later checks catch
    theirs; the run then stops before the summary, and its last line
    reports the exception. *)
Theorem exit_status_one (m : machine) :
  (fst (script m) = 1 <->
   exists msg,
     fst (check_requirements m) = Raise (Exception msg)
     \/ ((exists b, fst (check_requirements m) = Ok b)
         /\ fst (check_env m) = Raise (Exception msg)))
  /\ (fst (script m) = 1 ->
      existsb is_verdict (snd (script m)) = false
      /\ exists msg, last (snd (script m)) = Some (Unexpected msg)).
Proof.
  split; [split |].
  - unfold script. open_checks m; try destruct e1; try destruct e2; cbn [fst];
      intros H; try discriminate H; eauto 6.
  - unfold script. intros (msg & [H | [[b Hb] H]]); revert H; try revert Hb;
      open_checks m; try destruct e1; try destruct e2; cbn [fst];
      intros; try discriminate; reflexivity.
  - unfold script. open_checks m; try destruct e1; try destruct e2; cbn [fst snd];
      intros H; try discriminate H.
    all: apply plain_no_verdict in Hreq; destruct Hreq as [Hreq _].
    all: try (apply plain_no_verdict in Henv; destruct Henv as [Henv _]).
    all: split; [cbn [existsb is_verdict orb];
                 repeat (rewrite existsb_app; cbn [existsb is_verdict orb]);
                 rewrite ?Hreq, ?Henv; reflexivity |].
    all: eexists; rewrite ?app_comm_cons, ?app_assoc; apply last_snoc.
Qed.

(** X21: with a [.env] file in place and [python-dotenv] not installed,
    [check_requirements] reports the package among the missing ones and
    returns [False], and then the import in [check_env], which is outside
    any [try], ends the run: status 1, no summary. *)
Theorem missing_dotenv_aborts (m : machine) (msg : string) :
  importable m required ->
  import_module m "dotenv" = NotInstalled msg ->
  env_file_exists m = true ->
  fst (check_requirements m) = Ok false
  /\ In "python-dotenv" (missing_in m required)
  /\ In (PipInstall (missing_in m required)) (snd (check_requirements m))
  /\ script m
     = (1, [BlankRule; Title Checker; RuleBlank] ++ snd (check_requirements m)
           ++ [Rule; Title Environment; Rule; EnvFileExists; Unexpected msg])
  /\ existsb is_verdict (snd (script m)) = false.
Proof.
  intros Himp Hdot Henv.
  assert (Hin : In "python-dotenv" (missing_in m required)).
  { apply (in_missing m required "dotenv" "python-dotenv" msg); [| exact Hdot].
    unfold required. cbn. auto 10. }
  destruct (requirements_outcome m Himp) as (Hres & Hpip).
  assert (Hne : missing_in m required <> []) by (intros E; rewrite E in Hin; destruct Hin).
  assert (Hfalse : fst (check_requirements m) = Ok false).
  { rewrite Hres. destruct (missing_in m required); [contradiction | reflexivity]. }
  assert (Hscript : script m
     = (1, [BlankRule; Title Checker; RuleBlank] ++ snd (check_requirements m)
           ++ [Rule; Title Environment; Rule; EnvFileExists; Unexpected msg])).
  { unfold script, main. unfold check_env, import_or_raise. rewrite Henv, Hdot.
    destruct (check_requirements m) as [r t1]. cbn [fst] in Hfalse. subst r.
    cbn. rewrite <- app_assoc. reflexivity. }
  repeat split; auto.
  rewrite Hscript. cbn [snd]. pose proof (check_requirements_lines m) as Hl.
  apply plain_no_verdict in Hl. destruct Hl as [Hl _].
  cbn [app existsb is_verdict orb]. rewrite existsb_app, Hl. reflexivity.
Qed.

(** *** The checker on concrete machines *)

(** A machine without [python-dotenv]. *)
Lemma missing_dotenv_aborts_witness :
  fst (script (demo_machine (NotInstalled "No module named 'dotenv'"))) = 1
  /\ existsb is_verdict (snd (script (demo_machine (NotInstalled "No module named 'dotenv'"))))
     = false.
Proof.
  destruct (missing_dotenv_aborts (demo_machine (NotInstalled "No module named 'dotenv'"))
              "No module named 'dotenv'") as (_ & _ & _ & Hs & Hv).
  - intros module package e _. cbn. destruct (String.eqb module "dotenv"); discriminate.
  - reflexivity.
  - reflexivity.
  - split; [rewrite Hs; reflexivity | exact Hv].
Defined.

(** A machine on which everything is in place: the key is shown by its
    first ten and last four characters, and the run ends with the
    verdict that all checks passed. *)
Lemma env_check_accepts_witness :
  In (KeyShown "AIzaSyA-01" "rstu") (snd (check_env (demo_machine Imported))).
Proof.
  destruct (proj1 (proj2 (env_check_accepts (demo_machine Imported))) eq_refl)
    as (_ & key & Hk & Hin).
  injection Hk as <-. exact Hin.
Defined.

Lemma api_test_gated_witness : In AllPassed (snd (main (demo_machine Imported))).
Proof.
  apply (proj1 (proj2 (api_test_gated (demo_machine Imported)))).
  repeat split.
Defined.

Lemma key_mask_reveals_witness :
  exists hidden : string,
    "AIzaSyA-0123456789-abcdefghijklmnopqrstu"
    = "AIzaSyA-01" +:+ hidden +:+ "rstu"
    /\ String.length hidden = 26%nat.
Proof.
  destruct (proj2 (proj2 (key_mask_reveals "AIzaSyA-0123456789-abcdefghijklmnopqrstu")))
    as (hidden & Hk & Hl).
  - vm_compute. lia.
  - exists hidden. split; [exact Hk | exact Hl].
Defined.

End CheckSetupFacts.
